(** * wargame.py: command dispatch, configuration reflection, lifecycle

    A shallow embedding of [src/wargame.py].  Python objects are mutable, and
    an exception does not undo what was done before it was raised, so the
    stateful part is written in a state-and-exception monad over a [World]:
    the [Game] object, the events emitted so far (writes to the two standard
    streams and records handed to the logger) and the wall clock. *)

From Stdlib Require Import ZArith List String Ascii Bool Lia DecimalString
  DecimalZ.
Import ListNotations.

Open Scope string_scope.
Open Scope Z_scope.

(** ** Python values *)

(** The values a configuration attribute holds in this development: the
    program stores integers and strings; [None] and booleans stand for the
    values [GameConfig.validate] has to turn down on their type. *)
Inductive pyval : Type :=
| PyNone
| PyBool (b : bool)
| PyInt (n : Z)
| PyStr (s : string).

Inductive pytype : Type := NoneType | TBool | TInt | TStr.

(** [type(v)] *)
Definition type_of (v : pyval) : pytype :=
  match v with
  | PyNone => NoneType
  | PyBool _ => TBool
  | PyInt _ => TInt
  | PyStr _ => TStr
  end.

(** [t.__name__] *)
Definition type_name (t : pytype) : string :=
  match t with
  | NoneType => "NoneType"
  | TBool => "bool"
  | TInt => "int"
  | TStr => "str"
  end.

(** ** Exceptions *)

Inductive exn_class : Type :=
| KeyError | TypeError | ValueError | AttributeError | GameActionError
| EOFError | KeyboardInterrupt.

Record exn : Type := Exn { exn_type : exn_class; exn_msg : string }.

Inductive result (A : Type) : Type :=
| Ok (a : A)
| Raise (e : exn).
Arguments Ok {A} a.
Arguments Raise {A} e.

Definition exn_class_eqb (a b : exn_class) : bool :=
  match a, b with
  | KeyError, KeyError | TypeError, TypeError | ValueError, ValueError
  | AttributeError, AttributeError
  | GameActionError, GameActionError | EOFError, EOFError
  | KeyboardInterrupt, KeyboardInterrupt => true
  | _, _ => false
  end.

(** ** Strings of the interpreter

    A [string] is read as a sequence of code points below 256. *)

Definition code (c : ascii) : N := N_of_ascii c.

(** The double quote and the line feed, which a literal cannot hold. *)
Definition DQ : ascii := ascii_of_N 34.
Definition LF : string := String (ascii_of_N 10) "".

(** [s] between double quotes, as the messages of the program write a
    setting's name. *)
Definition dquoted (s : string) : string := String DQ (s ++ String DQ "").

(** [str.isspace] on one character, which is also what [str.strip()]
    takes for white space: TAB LF VT FF CR, FS GS RS US, SPACE, NEL and
    NBSP. *)
Definition py_isspace (c : ascii) : bool :=
  let n := code c in
  ((9 <=? n) && (n <=? 13) || (28 <=? n) && (n <=? 32)
   || (n =? 133) || (n =? 160))%N.

Fixpoint lstrip (s : string) : string :=
  match s with
  | String c rest => if py_isspace c then lstrip rest else s
  | EmptyString => EmptyString
  end.

Fixpoint rstrip (s : string) : string :=
  match s with
  | EmptyString => EmptyString
  | String c rest =>
      match rstrip rest with
      | EmptyString => if py_isspace c then EmptyString else String c EmptyString
      | r => String c r
      end
  end.

Fixpoint all_space (s : string) : bool :=
  match s with
  | EmptyString => true
  | String c rest => py_isspace c && all_space rest
  end.

(** [s.isspace()]: at least one character, and white space only. *)
Definition isspace (s : string) : bool :=
  negb (s =? "")%string && all_space s.

(** [s.strip()] *)
Definition py_strip (s : string) : string := rstrip (lstrip s).

(** [str(n)] and [repr(n)] of an integer. *)
Definition str_of_int (n : Z) : string := NilZero.string_of_int (Z.to_int n).

Definition is_digit (c : ascii) : bool :=
  ((48 <=? code c) && (code c <=? 57))%N.

Definition digit_val (c : ascii) : Z := Z.of_N (code c) - 48.

(** The digits of an [int()] literal after the sign: decimal digits, with
    single underscores allowed between two digits.  [prev] tells what came
    before: [None] at the start, [Some true] after a digit, [Some false]
    after an underscore.  Returns the value and the number of digits. *)
Fixpoint int_digits (s : string) (prev : option bool) (acc : Z) (count : nat)
  : option (Z * nat) :=
  match s with
  | EmptyString =>
      match prev with
      | Some true => Some (acc, count)
      | _ => None
      end
  | String c rest =>
      if is_digit c then int_digits rest (Some true) (10 * acc + digit_val c) (S count)
      else if (c =? "_")%char then
        match prev with
        | Some true => int_digits rest (Some false) acc count
        | _ => None
        end
      else None
  end.

(** ** [repr] of a string *)

Definition hex_digit (n : N) : ascii :=
  if (n <? 10)%N then ascii_of_N (48 + n) else ascii_of_N (87 + n).

(** Code points below 256 that [repr] writes as they are. *)
Definition py_isprintable (c : ascii) : bool :=
  let n := code c in
  ((32 <=? n) && (n <=? 126) || (161 <=? n) && negb (n =? 173))%N.

Fixpoint contains (c : ascii) (s : string) : bool :=
  match s with
  | EmptyString => false
  | String d rest => (d =? c)%char || contains c rest
  end.

Definition repr_char (quote c : ascii) : string :=
  if (c =? quote)%char || (c =? "\")%char then String "\" (String c "")
  else if (code c =? 9)%N then "\t"
  else if (code c =? 10)%N then "\n"
  else if (code c =? 13)%N then "\r"
  else if py_isprintable c then String c ""
  else String "\" (String "x"
         (String (hex_digit (code c / 16)) (String (hex_digit (code c mod 16)) ""))).

Fixpoint repr_body (quote : ascii) (s : string) : string :=
  match s with
  | EmptyString => EmptyString
  | String c rest => repr_char quote c ++ repr_body quote rest
  end.

(** [repr(s)]: single quotes, unless [s] has a single quote and no double
    quote. *)
Definition repr_str (s : string) : string :=
  let quote : ascii :=
    if contains "'" s && negb (contains DQ s) then DQ else "'"%char in
  String quote (repr_body quote s ++ String quote "").

Definition py_repr (v : pyval) : string :=
  match v with
  | PyNone => "None"
  | PyBool true => "True"
  | PyBool false => "False"
  | PyInt n => str_of_int n
  | PyStr s => repr_str s
  end.

(** What [int()] takes for white space around a literal.  It is not the
    set of [str.isspace]: below 127 [int()] keeps the characters as they
    are and skips TAB LF VT FF CR and SPACE only, so the separators FS GS
    RS US are no white space to it; above, NEL and NBSP are read as
    spaces. *)
Definition int_isspace (c : ascii) : bool :=
  let n := code c in
  ((9 <=? n) && (n <=? 13) || (n =? 32) || (n =? 133) || (n =? 160))%N.

Fixpoint int_lstrip (s : string) : string :=
  match s with
  | String c rest => if int_isspace c then int_lstrip rest else s
  | EmptyString => EmptyString
  end.

Fixpoint int_rstrip (s : string) : string :=
  match s with
  | EmptyString => EmptyString
  | String c rest =>
      match int_rstrip rest with
      | EmptyString => if int_isspace c then EmptyString else String c EmptyString
      | r => String c r
      end
  end.

(** The literal between the white space [int()] skips on both sides. *)
Definition int_strip (s : string) : string := int_rstrip (int_lstrip s).

(** [sys.get_int_max_str_digits()], the interpreter's default. *)
Definition INT_MAX_STR_DIGITS : nat := 4300.

(** [int(s)] for a string [s]: the white space of [int_isspace] around
    the literal is dropped, one sign is allowed, then come the digits.  It raises [ValueError] on a
    malformed literal and on one with more digits than the interpreter
    converts. *)
Definition py_int (s : string) : result Z :=
  let body := int_strip s in
  let '(neg, digits) :=
    match body with
    | String "-" rest => (true, rest)
    | String "+" rest => (false, rest)
    | _ => (false, body)
    end in
  match int_digits digits None 0 0 with
  | Some (n, count) =>
      if Nat.ltb INT_MAX_STR_DIGITS count then
        Raise (Exn ValueError
          ("Exceeds the limit (" ++ str_of_int (Z.of_nat INT_MAX_STR_DIGITS)
           ++ " digits) for integer string conversion: value has "
           ++ str_of_int (Z.of_nat count)
           ++ " digits; use sys.set_int_max_str_digits() to increase the limit"))
      else Ok (if neg then - n else n)
  | None =>
      Raise (Exn ValueError
        ("invalid literal for int() with base 10: " ++ repr_str s))
  end.

(** ** Module constants *)

Definition MAX_EDGE : Z := 20.
Definition MIN_EDGE : Z := 2.
Definition EDGE : Z := MAX_EDGE.

Definition MAX_SOLDIERS : Z := EDGE ^ 2.
Definition MIN_SOLDIERS : Z := 2.
Definition SOLDIERS : Z := MIN_SOLDIERS.

Definition PROMPT : string := "time=%t, round=%r)> ".

(** ** [GameConfig] *)

Record GameConfig : Type := mkGameConfig {
  _edge : pyval;
  _prompt : pyval;
  _soldiers : pyval
}.

(** [GameConfig.validate]: the two type tests, then the two range tests,
    in the order of the source. *)
Definition validate (c : GameConfig) : result unit :=
  match _edge c with
  | PyInt e =>
      match _soldiers c with
      | PyInt s =>
          if (e <? MIN_EDGE) || (e >? MAX_EDGE) then
            Raise (Exn ValueError
              (dquoted "edge" ++ " must be between " ++ str_of_int MIN_EDGE
               ++ " and " ++ str_of_int MAX_EDGE))
          else if (s <? MIN_SOLDIERS) || (s >? MAX_SOLDIERS) then
            Raise (Exn ValueError
              (dquoted "soldiers" ++ " must be between " ++ str_of_int MIN_SOLDIERS
               ++ " and " ++ str_of_int MAX_SOLDIERS))
          else Ok tt
      | _ => Raise (Exn TypeError (dquoted "soldiers" ++ " must be of type integer"))
      end
  | _ => Raise (Exn TypeError (dquoted "edge" ++ " must be of type integer"))
  end.

(** [str(v)], the text an f-string writes for [v]. *)
Definition py_str (v : pyval) : string :=
  match v with
  | PyStr s => s
  | _ => py_repr v
  end.

(** Truth value of an optional string, as [if output:] tests it. *)
Definition truthy (o : option string) : bool :=
  match o with
  | Some (String _ _) => true
  | _ => false
  end.

(** [t(value)] for the type [t] of a setting and a string [value]. *)
Definition call_type (t : pytype) (value : string) : result pyval :=
  match t with
  | TInt =>
      match py_int value with
      | Ok n => Ok (PyInt n)
      | Raise e => Raise e
      end
  | TStr => Ok (PyStr value)
  | TBool => Ok (PyBool (negb (value =? "")%string))
  | NoneType => Raise (Exn TypeError "NoneType takes no arguments")
  end.

(** ** The session and its world *)

Inductive GameState : Type :=
| UNSTARTED | STARTING | STARTED | STOPPING | STOPPED.

Definition GameState_name (s : GameState) : string :=
  match s with
  | UNSTARTED => "UNSTARTED"
  | STARTING => "STARTING"
  | STARTED => "STARTED"
  | STOPPING => "STOPPING"
  | STOPPED => "STOPPED"
  end.

Definition GameState_eqb (a b : GameState) : bool :=
  match a, b with
  | UNSTARTED, UNSTARTED | STARTING, STARTING | STARTED, STARTED
  | STOPPING, STOPPING | STOPPED, STOPPED => true
  | _, _ => false
  end.

Record Game : Type := mkGame {
  _config : GameConfig;
  _round : Z;
  _state : GameState
}.

(** What the program emits: a write to standard output, a write to standard
    error, a record passed to [logger.debug] ([main] sends those to standard
    error as well). *)
Inductive event : Type :=
| Stdout (s : string)
| Stderr (s : string)
| Debug (s : string).

(** [clock i] is what [datetime.now().strftime] gives at its [i]-th call. *)
Record World : Type := mkWorld {
  game : Game;
  events : list event;
  ticks : nat;
  clock : nat -> string
}.

Definition M (A : Type) : Type := World -> World * result A.

Definition ret {A} (a : A) : M A := fun w => (w, Ok a).

Definition raise {A} (e : exn) : M A := fun w => (w, Raise e).

Definition bind {A B} (m : M A) (k : A -> M B) : M B :=
  fun w =>
    match m w with
    | (w', Ok a) => k a w'
    | (w', Raise e) => (w', Raise e)
    end.

(** [try: m  except ...: h exc], where [h] re-raises what it does not catch. *)
Definition try_except {A} (m : M A) (h : exn -> M A) : M A :=
  fun w =>
    match m w with
    | (w', Ok a) => (w', Ok a)
    | (w', Raise e) => h e w'
    end.

Notation "x <- m ;; k" := (bind m (fun x => k))
  (at level 61, m at next level, right associativity).
Notation "m ;;; k" := (bind m (fun _ => k))
  (at level 61, right associativity).

Definition emit (e : event) : M unit :=
  fun w => (mkWorld (game w) (events w ++ [e])%list (ticks w) (clock w), Ok tt).

Definition get_game : M Game := fun w => (w, Ok (game w)).

Definition put_game (g : Game) : M unit :=
  fun w => (mkWorld g (events w) (ticks w) (clock w), Ok tt).

(** [datetime.now().strftime(...)]: one reading of the clock. *)
Definition strftime_now : M string :=
  fun w => (mkWorld (game w) (events w) (S (ticks w)) (clock w),
            Ok (clock w (ticks w))).

(** *** [Game.state], [Game.start], [Game.stop] *)

(** The [state] setter: assign, then log the new state's name. *)
Definition set_state (s : GameState) : M unit :=
  g <- get_game ;;
  put_game (mkGame (_config g) (_round g) s) ;;;
  g' <- get_game ;;
  emit (Debug (dquoted "state" ++ " set to " ++ GameState_name (_state g'))).

Definition start : M unit := set_state STARTING ;;; set_state STARTED.

Definition stop : M unit := set_state STOPPING ;;; set_state STOPPED.

Definition has_started (g : Game) : bool :=
  existsb (GameState_eqb (_state g)) [STARTING; STARTED].

Definition has_stopped (g : Game) : bool :=
  existsb (GameState_eqb (_state g)) [STOPPED].

(** *** The class dictionary of [GameConfig] *)

(** An entry of [GameConfig.__dict__]: a plain attribute, a function, or a
    property with its getter and setter. *)
Inductive member : Type :=
| Attribute
| Function
| Property (fget : GameConfig -> pyval) (fset : GameConfig -> pyval -> GameConfig).

Definition isinstance_property (m : member) : bool :=
  match m with
  | Property _ _ => true
  | _ => false
  end.

Definition GameConfig_dict : list (string * member) :=
  [ ("__module__", Attribute);
    ("__init__", Function);
    ("edge", Property _edge
       (fun c v => mkGameConfig v (_prompt c) (_soldiers c)));
    ("prompt", Property _prompt
       (fun c v => mkGameConfig (_edge c) v (_soldiers c)));
    ("soldiers", Property _soldiers
       (fun c v => mkGameConfig (_edge c) (_prompt c) v));
    ("validate", Function);
    ("__dict__", Attribute);
    ("__weakref__", Attribute);
    ("__doc__", Attribute) ].

Fixpoint dict_get {A} (d : list (string * A)) (k : string) : option A :=
  match d with
  | [] => None
  | (k', v) :: rest => if (k' =? k)%string then Some v else dict_get rest k
  end.

Definition no_attribute (name : string) : exn :=
  Exn AttributeError ("'GameConfig' object has no attribute '" ++ name ++ "'").

(** [getattr(self._game.config, name)].  The actions call it, and
    [setattr], on the name of a property only; the other entries of the
    class dictionary are not given a value here. *)
Definition getattr (name : string) : M pyval :=
  g <- get_game ;;
  match dict_get GameConfig_dict name with
  | Some (Property fget _) => ret (fget (_config g))
  | _ => raise (no_attribute name)
  end.

(** [setattr(self._game.config, name, v)]: the property's setter assigns
    and logs the attribute as read back. *)
Definition setattr (name : string) (v : pyval) : M unit :=
  g <- get_game ;;
  match dict_get GameConfig_dict name with
  | Some (Property fget fset) =>
      let c' := fset (_config g) v in
      put_game (mkGame c' (_round g) (_state g)) ;;;
      emit (Debug (dquoted name ++ " set to " ++ py_str (fget c')))
  | _ => raise (no_attribute name)
  end.

(** *** The actions *)

Definition GameActionError_of (msg : string) : exn := Exn GameActionError msg.

(** The [for ... else] of [GetSetting.run] over the items of the class
    dictionary. *)
Fixpoint GetSetting_loop (items : list (string * member)) (setting : string)
  : M (option string) :=
  match items with
  | [] => raise (GameActionError_of ("Unknown setting: " ++ setting))
  | (_property, _value) :: rest =>
      if (_property =? setting)%string && isinstance_property _value then
        v <- getattr setting ;;
        ret (Some (py_repr v))
      else GetSetting_loop rest setting
  end.

(** [GetSetting.run(setting=None)] *)
Definition GetSetting_run (setting : option string) : M (option string) :=
  match setting with
  | None => raise (GameActionError_of "Missing argument: setting")
  | Some setting => GetSetting_loop GameConfig_dict setting
  end.

(** The [try] statement of [SetSetting.run]: read the attribute, call its
    type on the string, assign; [setattr] returns [None].  A [ValueError]
    from any of the three becomes a [GameActionError]. *)
Definition SetSetting_try (setting value : string) : M (option string) :=
  try_except
    (old <- getattr setting ;;
     new <- (fun w => (w, call_type (type_of old) value)) ;;
     setattr setting new ;;;
     ret None)
    (fun exc =>
       match exn_type exc with
       | ValueError =>
           raise (GameActionError_of ("Illegal value for setting: " ++ setting))
       | _ => raise exc
       end).

(** The [for ... else] of [SetSetting.run]. *)
Fixpoint SetSetting_loop (items : list (string * member))
  (setting value : string) : M (option string) :=
  match items with
  | [] => raise (GameActionError_of ("Unknown setting: " ++ setting))
  | (_property, _value) :: rest =>
      if negb (_property =? setting)%string || negb (isinstance_property _value)
      then SetSetting_loop rest setting value
      else SetSetting_try setting value
  end.

(** [SetSetting.run(setting=None, value=None)] *)
Definition SetSetting_run (setting value : option string) : M (option string) :=
  match setting with
  | None => raise (GameActionError_of "Missing argument: setting")
  | Some setting =>
      match value with
      | None => raise (GameActionError_of "Missing argument: value")
      | Some value => SetSetting_loop GameConfig_dict setting value
      end
  end.

(** [QuitGame.run()] *)
Definition QuitGame_run : M (option string) := stop ;;; ret None.

(** The subclasses of [GameAction] with a [run]. *)
Inductive GameAction : Type := GetSetting | SetSetting | QuitGame.

(** [Game._actions] *)
Definition _actions : list (string * GameAction) :=
  [("get", GetSetting); ("quit", QuitGame); ("set", SetSetting)].

Definition action_name (a : GameAction) : string :=
  match a with
  | GetSetting => "GetSetting"
  | SetSetting => "SetSetting"
  | QuitGame => "QuitGame"
  end.

(** The interpreter's complaint when [run] is called with more positional
    arguments than it takes ([self] is counted). *)
Definition too_many_arguments (a : GameAction) (given : nat) : exn :=
  Exn TypeError
    (action_name a ++ ".run() takes "
     ++ match a with
        | GetSetting => "from 1 to 2 positional arguments"
        | SetSetting => "from 1 to 3 positional arguments"
        | QuitGame => "1 positional argument"
        end
     ++ " but " ++ str_of_int (Z.of_nat (S given))
     ++ (if Nat.eqb given 0 then " was given" else " were given")).

(** The call of [run] on the unpacked [arguments]: positional arguments
    are bound to the parameters of the action's [run]. *)
Definition run (a : GameAction) (arguments : list string) : M (option string) :=
  match a, arguments with
  | GetSetting, [] => GetSetting_run None
  | GetSetting, [setting] => GetSetting_run (Some setting)
  | SetSetting, [] => SetSetting_run None None
  | SetSetting, [setting] => SetSetting_run (Some setting) None
  | SetSetting, [setting; value] => SetSetting_run (Some setting) (Some value)
  | QuitGame, [] => QuitGame_run
  | _, _ => raise (too_many_arguments a (List.length arguments))
  end.

(** ** [shlex.split] *)

(** The lexer's [state]: [' '], ['a'], a quote character, or the escape
    character together with [escapedstate] ([None] for ['a']). *)
Inductive lex_state : Type :=
| InBlank
| InWord
| InQuote (q : ascii)
| InEscape (escapedstate : option ascii).

Definition shlex_whitespace (c : ascii) : bool :=
  (c =? " ")%char || (code c =? 9)%N || (code c =? 13)%N || (code c =? 10)%N.

Definition shlex_quote (c : ascii) : bool := (c =? "'")%char || (c =? DQ)%char.

Definition shlex_escape (c : ascii) : bool := (c =? "\")%char.

(** POSIX mode, [whitespace_split] on, no comment characters: the setup of
    [shlex.split].  [token] and [quoted] are those of the token being read,
    [acc] holds the tokens already returned. *)
Fixpoint shlex_scan (s : string) (state : lex_state) (token : string)
  (quoted : bool) (acc : list string) : result (list string) :=
  match s with
  | EmptyString =>
      match state with
      | InBlank | InWord =>
          Ok (if negb (token =? "")%string || quoted then (acc ++ [token])%list else acc)
      | InQuote _ => Raise (Exn ValueError "No closing quotation")
      | InEscape _ => Raise (Exn ValueError "No escaped character")
      end
  | String nextchar rest =>
      match state with
      | InBlank =>
          if shlex_whitespace nextchar then
            if negb (token =? "")%string || quoted
            then shlex_scan rest InBlank "" false (acc ++ [token])%list
            else shlex_scan rest InBlank token quoted acc
          else if shlex_escape nextchar then
            shlex_scan rest (InEscape None) token quoted acc
          else if shlex_quote nextchar then
            shlex_scan rest (InQuote nextchar) token quoted acc
          else shlex_scan rest InWord (String nextchar "") quoted acc
      | InQuote q =>
          if (nextchar =? q)%char then shlex_scan rest InWord token true acc
          else if shlex_escape nextchar && (q =? DQ)%char then
            shlex_scan rest (InEscape (Some q)) token true acc
          else shlex_scan rest (InQuote q) (token ++ String nextchar "") true acc
      | InEscape escapedstate =>
          match escapedstate with
          | Some q =>
              let token :=
                if negb (shlex_escape nextchar) && negb (nextchar =? q)%char
                then token ++ "\" else token in
              shlex_scan rest (InQuote q) (token ++ String nextchar "") quoted acc
          | None =>
              shlex_scan rest InWord (token ++ String nextchar "") quoted acc
          end
      | InWord =>
          if shlex_whitespace nextchar then
            if negb (token =? "")%string || quoted
            then shlex_scan rest InBlank "" false (acc ++ [token])%list
            else shlex_scan rest InBlank token quoted acc
          else if shlex_quote nextchar then
            shlex_scan rest (InQuote nextchar) token quoted acc
          else if shlex_escape nextchar then
            shlex_scan rest (InEscape None) token quoted acc
          else shlex_scan rest InWord (token ++ String nextchar "") quoted acc
      end
  end.

Definition shlex_split (s : string) : result (list string) :=
  shlex_scan s InBlank "" false [].

(** ** [Game.process_user_input] *)

(** [action, *arguments = tokens] *)
Definition unpack_action (tokens : result (list string))
  : M (string * list string) :=
  match tokens with
  | Raise e => raise e
  | Ok [] =>
      raise (Exn ValueError
               "not enough values to unpack (expected at least 1, got 0)")
  | Ok (action :: arguments) => ret (action, arguments)
  end.

(** [self._actions[action]] *)
Definition lookup_action (action : string) : M GameAction :=
  match dict_get _actions action with
  | Some cls => ret cls
  | None => raise (Exn KeyError (repr_str action))
  end.

(** The [try] statement of [process_user_input]: look the action up and
    run it; an unknown action and a [GameActionError] are reported on
    standard error, anything else is not caught. *)
Definition dispatch (action : string) (arguments : list string)
  : M (option string) :=
  try_except
    (cls <- lookup_action action ;;
     run cls arguments)
    (fun exc =>
       match exn_type exc with
       | KeyError =>
           emit (Stderr ("ERROR: Unknown action: " ++ action ++ LF)) ;;;
           ret None
       | GameActionError =>
           emit (Stderr ("ERROR: " ++ exn_msg exc ++ LF)) ;;;
           ret None
       | _ => raise exc
       end).

(** [if output: sys.stdout.write(...)] *)
Definition report (output : option string) : M unit :=
  if truthy output then
    match output with
    | Some text => emit (Stdout (text ++ LF))
    | None => ret tt
    end
  else ret tt.

Definition process_user_input (user_input : string) : M unit :=
  let stripped_input := py_strip user_input in
  if (user_input =? "")%string then ret tt
  else
    p <- unpack_action (shlex_split stripped_input) ;;
    let '(action, arguments) := p in
    output <- dispatch action arguments ;;
    report output.

(** ** [Game.prompt] *)

Inductive provider : Type := TimeProvider | RoundProvider.

(** [PROMPT_MAP] *)
Definition PROMPT_MAP : list (ascii * provider) :=
  [("t"%char, TimeProvider); ("r"%char, RoundProvider)].

Fixpoint prompt_map_get (d : list (ascii * provider)) (k : ascii)
  : option provider :=
  match d with
  | [] => None
  | (k', v) :: rest => if (k' =? k)%char then Some v else prompt_map_get rest k
  end.

(** The provider called on the session, and [str] of what it returns. *)
Definition call_provider (p : provider) : M string :=
  match p with
  | TimeProvider => strftime_now
  | RoundProvider => g <- get_game ;; ret (py_str (PyInt (_round g)))
  end.

(** [re.sub] with the pattern built from the keys of the map: from left to
    right, a percent sign followed by a key is replaced by the provider's
    text, and the scan goes on after the key; any other character is
    copied. *)
Fixpoint prompt_sub (template : string) : M string :=
  match template with
  | EmptyString => ret EmptyString
  | String c rest =>
      let copy := (r <- prompt_sub rest ;; ret (String c r)) in
      if (c =? "%")%char then
        match rest with
        | String k rest' =>
            match prompt_map_get PROMPT_MAP k with
            | Some p =>
                v <- call_provider p ;;
                r <- prompt_sub rest' ;;
                ret (v ++ r)
            | None => copy
            end
        | EmptyString => copy
        end
      else copy
  end.

(** The [prompt] property of [Game]. *)
Definition prompt : M string :=
  g <- get_game ;;
  match _prompt (_config g) with
  | PyStr template => prompt_sub template
  | v =>
      raise (Exn TypeError
               ("expected string or bytes-like object, got '"
                ++ type_name (type_of v) ++ "'"))
  end.

(** ** [main] *)

(** What [input()] does at one call: return a line, or raise [EOFError] or
    [KeyboardInterrupt]. *)
Inductive input_event : Type :=
| Line (s : string)
| EndOfFile
| CtrlC.

Definition input (i : input_event) : M string :=
  match i with
  | Line s => ret s
  | EndOfFile => raise (Exn EOFError "EOF when reading a line")
  | CtrlC => raise (Exn KeyboardInterrupt "")
  end.

(** [Game.get_user_input], given what [input()] will do. *)
Definition get_user_input (i : input_event) : M string :=
  p <- prompt ;;
  emit (Stdout p) ;;;
  input i.

(** How the loop of [main] ends on a finite script of inputs: the process
    returns, an exception leaves [main], or the script is used up and the
    process waits in [input()] after writing the prompt. *)
Inductive outcome : Type :=
| Returned
| Crashed (e : exn)
| AwaitingInput.

(** The [except (EOFError, KeyboardInterrupt)] clause around the loop. *)
Definition loop_except (e : exn) (w : World) : World * outcome :=
  match exn_type e with
  | EOFError | KeyboardInterrupt =>
      let '(w', _) := (emit (Stdout LF) ;;; stop) w in (w', Returned)
  | _ => (w, Crashed e)
  end.

(** The [while] loop of [main] inside its [try], one input per turn. *)
Fixpoint repl (inputs : list input_event) (w : World) : World * outcome :=
  if has_started (game w) && negb (has_stopped (game w)) then
    match inputs with
    | [] =>
        match (p <- prompt ;; emit (Stdout p)) w with
        | (w', Ok _) => (w', AwaitingInput)
        | (w', Raise e) => loop_except e w'
        end
    | i :: rest =>
        match (line <- get_user_input i ;; process_user_input line) w with
        | (w', Ok _) => repl rest w'
        | (w', Raise e) => loop_except e w'
        end
    end
  else (w, Returned).

(** [GameConfig.__init__]: three assignments through the setters, each
    logged. *)
Definition GameConfig_init (edge prompt soldiers : pyval)
  : GameConfig * list event :=
  (mkGameConfig edge prompt soldiers,
   [Debug (dquoted "edge" ++ " set to " ++ py_str edge);
    Debug (dquoted "prompt" ++ " set to " ++ py_str prompt);
    Debug (dquoted "soldiers" ++ " set to " ++ py_str soldiers)]).

(** [Game.__init__]: round 0, then the state goes through its setter (the
    attribute holds [None] before that, which nothing reads). *)
Definition Game_init (config : GameConfig) (log : list event)
  (clk : nat -> string) : World :=
  fst (set_state UNSTARTED
         (mkWorld (mkGame config 0 UNSTARTED) log 0 clk)).

(** The start of [main]: the default configuration is built and
    validated, the session is built and started. *)
Definition boot (clk : nat -> string) : list event * result World :=
  let '(config, log) :=
    GameConfig_init (PyInt EDGE) (PyStr PROMPT) (PyInt SOLDIERS) in
  match validate config with
  | Raise e => (log, Raise e)
  | Ok _ => let w := fst (start (Game_init config log clk)) in (events w, Ok w)
  end.

(** [main]: the events of the run and how it ended. *)
Definition main (clk : nat -> string) (inputs : list input_event)
  : list event * outcome :=
  match boot clk with
  | (log, Raise e) => (log, Crashed e)
  | (_, Ok w) => let '(w', o) := repl inputs w in (events w', o)
  end.

(** The session as [main] has it when the loop is entered, under a clock
    that stands still. *)
Definition started_world : World :=
  fst (start
         (Game_init (fst (GameConfig_init (PyInt EDGE) (PyStr PROMPT) (PyInt SOLDIERS)))
            (snd (GameConfig_init (PyInt EDGE) (PyStr PROMPT) (PyInt SOLDIERS)))
            (fun _ => "1700000000"))).

(** The configuration holds values of the types its defaults have. *)
Definition typed (c : GameConfig) : Prop :=
  type_of (_edge c) = TInt /\ type_of (_prompt c) = TStr
  /\ type_of (_soldiers c) = TInt.

(** The world with another configuration, and with one more event. *)
Definition with_config (w : World) (c : GameConfig) : World :=
  mkWorld (mkGame c (_round (game w)) (_state (game w)))
    (events w) (ticks w) (clock w).

Definition with_event (w : World) (e : event) : World :=
  mkWorld (game w) (events w ++ [e])%list (ticks w) (clock w).


(** What a command of the loop may do to a session: the round stays, the
    types of the settings stay, the state stays or becomes [STOPPED]. *)
Definition kept (w w' : World) : Prop :=
  _round (game w') = _round (game w)
  /\ clock w' = clock w
  /\ (typed (_config (game w)) -> typed (_config (game w')))
  /\ (_state (game w') = _state (game w) \/ _state (game w') = STOPPED).

Definition keeps {A} (m : M A) : Prop := forall w, kept w (fst (m w)).

(** Two worlds that differ at most in how often the clock was read. *)
Definition clock_only (w w' : World) : Prop :=
  game w' = game w /\ events w' = events w /\ clock w' = clock w
  /\ (ticks w <= ticks w')%nat.

(** The number of positional arguments the [run] of an action accepts
    besides [self]. *)
Definition max_arguments (a : GameAction) : nat :=
  match a with
  | GetSetting => 1
  | SetSetting => 2
  | QuitGame => 0
  end.

(** The lines among some events that reach the user: writes to standard
    output and to standard error. *)
Definition user_lines (evs : list event) : list event :=
  filter (fun e => match e with Debug _ => false | _ => true end) evs.

(** The value of a decimal numeral read digit by digit from the left,
    as [int_digits] accumulates it. *)
Fixpoint uint_value (d : Decimal.uint) (acc : Z) : Z :=
  match d with
  | Decimal.Nil => acc
  | Decimal.D0 l => uint_value l (10 * acc + 0)
  | Decimal.D1 l => uint_value l (10 * acc + 1)
  | Decimal.D2 l => uint_value l (10 * acc + 2)
  | Decimal.D3 l => uint_value l (10 * acc + 3)
  | Decimal.D4 l => uint_value l (10 * acc + 4)
  | Decimal.D5 l => uint_value l (10 * acc + 5)
  | Decimal.D6 l => uint_value l (10 * acc + 6)
  | Decimal.D7 l => uint_value l (10 * acc + 7)
  | Decimal.D8 l => uint_value l (10 * acc + 8)
  | Decimal.D9 l => uint_value l (10 * acc + 9)
  end.

(** The number of digits [str(n)] writes. *)
Definition decimal_digits (n : Z) : nat :=
  String.length (str_of_int (Z.abs n)).

(** [w'] has the events of [w] followed by records for the logger only. *)
Definition extends_quietly (w w' : World) : Prop :=
  exists extra, events w' = (events w ++ extra)%list /\ user_lines extra = [].

Definition quiet {A} (m : M A) : Prop :=
  forall w, extends_quietly w (fst (m w)).

(** * Properties *)

(** ** Configuration validation *)

Lemma validate_messages_not_empty (c : GameConfig) (e : exn) :
  validate c = Raise e ->
  (exn_type e = TypeError \/ exn_type e = ValueError) /\ exn_msg e <> "".
Proof.
  unfold validate.
  destruct (_edge c); try (intros [= <-]; split; [now left | discriminate]).
  destruct (_soldiers c); try (intros [= <-]; split; [now left | discriminate]).
  destruct (_ || _); [intros [= <-]; split; [now right | discriminate] |].
  destruct (_ || _); [intros [= <-]; split; [now right | discriminate] |].
  discriminate.
Qed.

(** C1 (as amended): [validate] succeeds exactly when [edge] is an integer
    in [2,20] and [soldiers] is an integer in [2,400], the fixed bound
    [MAX_SOLDIERS], whatever [edge] is; in every other case it raises a
    [TypeError] or a [ValueError] with a message that is not empty. *)
Theorem validate_succeeds_iff_in_fixed_bounds :
  forall c : GameConfig,
    (validate c = Ok tt <->
     exists e s, _edge c = PyInt e /\ _soldiers c = PyInt s
                 /\ 2 <= e <= 20 /\ 2 <= s <= 400)
    /\ (validate c = Ok tt
        \/ exists exc, validate c = Raise exc
                       /\ (exn_type exc = TypeError \/ exn_type exc = ValueError)
                       /\ exn_msg exc <> "").
Proof.
  intros c; split.
  - unfold validate. split.
    + destruct (_edge c) as [| |e|]; try discriminate.
      destruct (_soldiers c) as [| |s|]; try discriminate.
      destruct ((e <? MIN_EDGE) || (e >? MAX_EDGE)) eqn:He; [discriminate|].
      destruct ((s <? MIN_SOLDIERS) || (s >? MAX_SOLDIERS)) eqn:Hs; [discriminate|].
      intros _. exists e, s.
      apply orb_false_iff in He, Hs. destruct He as [He1 He2], Hs as [Hs1 Hs2].
      unfold MIN_EDGE, MAX_EDGE, MIN_SOLDIERS, MAX_SOLDIERS, EDGE, MAX_EDGE in *.
      change (20 ^ 2) with 400 in Hs2.
      repeat split; lia.
    + intros (e & s & -> & -> & He & Hs).
      unfold MIN_EDGE, MAX_EDGE, MIN_SOLDIERS, MAX_SOLDIERS, EDGE, MAX_EDGE.
      change (20 ^ 2) with 400.
      replace ((e <? 2) || (e >? 20)) with false
        by (symmetry; apply orb_false_iff; split; lia).
      replace ((s <? 2) || (s >? 400)) with false
        by (symmetry; apply orb_false_iff; split; lia).
      reflexivity.
  - destruct (validate c) as [[]|exc] eqn:Hv; [now left | right].
    exists exc. split; [reflexivity|]. exact (validate_messages_not_empty c exc Hv).
Qed.

(** C1, as the claim has it, fails: with [edge = 2] and [soldiers = 5] the
    soldier count is above [edge] squared, yet [validate] succeeds. *)
Lemma validate_ignores_edge_squared :
  ~ (forall c : GameConfig,
       validate c = Ok tt <->
       exists e s, _edge c = PyInt e /\ _soldiers c = PyInt s
                   /\ 2 <= e <= 20 /\ 2 <= s <= e * e).
Proof.
  intros H.
  destruct (H (mkGameConfig (PyInt 2) (PyStr PROMPT) (PyInt 5))) as [H1 _].
  destruct (H1 eq_refl) as (e & s & He & Hs & _ & Hb).
  simpl in He, Hs. injection He as <-. injection Hs as <-. lia.
Qed.

(** ** What the commands keep *)

Lemma kept_refl (w : World) : kept w w.
Proof. unfold kept; auto. Qed.

Lemma kept_trans (a b c : World) : kept a b -> kept b c -> kept a c.
Proof.
  unfold kept. intros (R1 & C1 & T1 & S1) (R2 & C2 & T2 & S2).
  split; [congruence|]. split; [congruence|]. split; [auto|].
  destruct S2 as [S2|S2]; [rewrite S2; exact S1 | now right].
Qed.

Lemma keeps_ret {A} (a : A) : keeps (ret a).
Proof. intros w; apply kept_refl. Qed.

Lemma keeps_raise {A} (e : exn) : keeps (@raise A e).
Proof. intros w; apply kept_refl. Qed.

Lemma keeps_bind {A B} (m : M A) (k : A -> M B) :
  keeps m -> (forall a, keeps (k a)) -> keeps (bind m k).
Proof.
  intros Hm Hk w. unfold bind. specialize (Hm w).
  destruct (m w) as [w' [a|e]]; simpl in *; [|exact Hm].
  eapply kept_trans; [exact Hm | apply Hk].
Qed.

Lemma keeps_try_except {A} (m : M A) (h : exn -> M A) :
  keeps m -> (forall e, keeps (h e)) -> keeps (try_except m h).
Proof.
  intros Hm Hh w. unfold try_except. specialize (Hm w).
  destruct (m w) as [w' [a|e]]; simpl in *; [exact Hm|].
  eapply kept_trans; [exact Hm | apply Hh].
Qed.

Lemma keeps_emit (e : event) : keeps (emit e).
Proof. intros w; unfold kept; simpl; auto. Qed.

Lemma keeps_get_game : keeps get_game.
Proof. intros w; apply kept_refl. Qed.

Lemma keeps_strftime_now : keeps strftime_now.
Proof. intros w; unfold kept; simpl; auto. Qed.

Lemma keeps_stop : keeps stop.
Proof. intros w; unfold kept; simpl; auto. Qed.

Lemma keeps_getattr (name : string) : keeps (getattr name).
Proof.
  intros w. unfold getattr, bind, get_game.
  destruct (dict_get GameConfig_dict name) as [[| |fget fset]|];
    apply kept_refl.
Qed.

Create HintDb keeps.

#[local] Hint Resolve keeps_ret keeps_raise keeps_emit keeps_get_game
  keeps_strftime_now keeps_stop keeps_getattr : keeps.

(** The names under which the class dictionary holds a property. *)
Lemma property_names (name : string) (fget : GameConfig -> pyval)
  (fset : GameConfig -> pyval -> GameConfig) :
  dict_get GameConfig_dict name = Some (Property fget fset) ->
  name = "edge" \/ name = "prompt" \/ name = "soldiers".
Proof.
  unfold GameConfig_dict. cbn [dict_get].
  repeat match goal with
         | |- context [String.eqb ?a name] =>
             destruct (String.eqb_spec a name);
             [subst name; first [discriminate | auto] |]
         end.
  discriminate.
Qed.

Lemma call_type_type (t : pytype) (value : string) (v : pyval) :
  call_type t value = Ok v -> type_of v = t.
Proof.
  destruct t; simpl; try discriminate.
  - now intros [= <-].
  - destruct (py_int value); [now intros [= <-] | discriminate].
  - now intros [= <-].
Qed.

Lemma keeps_SetSetting_try (setting value : string) :
  keeps (SetSetting_try setting value).
Proof.
  intros w. unfold SetSetting_try, try_except, bind, getattr, setattr, get_game.
  destruct (dict_get GameConfig_dict setting) as [[| |fget fset]|] eqn:Hd;
    try apply kept_refl.
  destruct (property_names _ _ _ Hd) as [-> | [-> | ->]];
    simpl in Hd; injection Hd; intros <- <-; simpl;
    match goal with
    | |- context [call_type ?t value] =>
        destruct (call_type t value) as [v|[[] msg]] eqn:Hc
    end; simpl; try apply kept_refl;
    apply call_type_type in Hc;
    unfold kept, typed; simpl; intuition congruence.
Qed.

Lemma keeps_GetSetting_loop (items : list (string * member)) (setting : string) :
  keeps (GetSetting_loop items setting).
Proof.
  induction items as [|[p v] rest IH]; simpl; auto with keeps.
  destruct (_ && _); [|exact IH].
  apply keeps_bind; auto with keeps.
Qed.

Lemma keeps_SetSetting_loop (items : list (string * member))
  (setting value : string) :
  keeps (SetSetting_loop items setting value).
Proof.
  induction items as [|[p v] rest IH]; simpl; auto with keeps.
  destruct (_ || _); [exact IH | apply keeps_SetSetting_try].
Qed.

Lemma keeps_run (a : GameAction) (arguments : list string) :
  keeps (run a arguments).
Proof.
  destruct a; destruct arguments as [|x [|y [|z rest]]];
    cbn [run GetSetting_run SetSetting_run]; unfold QuitGame_run;
    auto with keeps;
    try apply keeps_GetSetting_loop; try apply keeps_SetSetting_loop.
Qed.

Lemma keeps_dispatch (action : string) (arguments : list string) :
  keeps (dispatch action arguments).
Proof.
  apply keeps_try_except.
  - apply keeps_bind; [|intros cls; apply keeps_run].
    unfold lookup_action. destruct (dict_get _ _); auto with keeps.
  - intros exc. destruct (exn_type exc); auto with keeps;
      apply keeps_bind; auto with keeps.
Qed.

Lemma keeps_report (output : option string) : keeps (report output).
Proof.
  unfold report. destruct (truthy output); auto with keeps.
  destruct output; auto with keeps.
Qed.

Lemma keeps_process_user_input (user_input : string) :
  keeps (process_user_input user_input).
Proof.
  unfold process_user_input.
  destruct (user_input =? "")%string; auto with keeps.
  apply keeps_bind.
  - unfold unpack_action.
    destruct (shlex_split _) as [[|a args]|e]; auto with keeps.
  - intros [action arguments].
    apply keeps_bind; [apply keeps_dispatch | apply keeps_report].
Qed.

(** A line that is not empty and splits into tokens is dispatched on the
    first of them. *)
Lemma process_user_input_tokens (line action : string)
  (arguments : list string) (w : World) :
  line <> "" ->
  shlex_split (py_strip line) = Ok (action :: arguments) ->
  process_user_input line w
  = (output <- dispatch action arguments ;; report output) w.
Proof.
  intros Hne Hs. unfold process_user_input.
  apply String.eqb_neq in Hne. rewrite Hne, Hs. reflexivity.
Qed.

(** Induction over a template two characters at a time, as the scan of
    the prompt reads it. *)
Lemma template_ind (P : string -> Prop) :
  P "" ->
  (forall c, P (String c "")) ->
  (forall c k rest, P rest -> P (String k rest) -> P (String c (String k rest))) ->
  forall s, P s.
Proof.
  intros H0 H1 H2 s.
  assert (H : P s /\ forall c, P (String c s)); [|exact (proj1 H)].
  induction s as [|k rest [IH1 IH2]]; split; auto.
Qed.

Lemma keeps_call_provider (p : provider) : keeps (call_provider p).
Proof. destruct p; simpl; auto with keeps. Qed.

Lemma keeps_prompt_sub (template : string) : keeps (prompt_sub template).
Proof.
  induction template as [|c|c k rest IH1 IH2] using template_ind.
  - simpl; auto with keeps.
  - simpl. destruct (c =? "%")%char; apply keeps_bind; auto with keeps.
  - change (prompt_sub (String c (String k rest))) with
      (let copy := (r <- prompt_sub (String k rest) ;; ret (String c r)) in
       if (c =? "%")%char then
         match prompt_map_get PROMPT_MAP k with
         | Some p =>
             v <- call_provider p ;; r <- prompt_sub rest ;; ret (v ++ r)
         | None => copy
         end
       else copy).
    cbv zeta.
    assert (keeps (r <- prompt_sub (String k rest) ;; ret (String c r)))
      by (apply keeps_bind; auto with keeps).
    destruct (c =? "%")%char; [|assumption].
    destruct (prompt_map_get PROMPT_MAP k); [|assumption].
    apply keeps_bind; [apply keeps_call_provider|].
    intros v. apply keeps_bind; auto with keeps.
Qed.

Lemma keeps_prompt : keeps prompt.
Proof.
  unfold prompt. apply keeps_bind; auto with keeps.
  intros g. destruct (_prompt (_config g)); auto with keeps.
  apply keeps_prompt_sub.
Qed.

Lemma keeps_get_user_input (i : input_event) : keeps (get_user_input i).
Proof.
  unfold get_user_input.
  apply keeps_bind; [apply keeps_prompt|]. intros p.
  apply keeps_bind; auto with keeps. intros _.
  destruct i; simpl; auto with keeps.
Qed.

Lemma kept_loop_except (e : exn) (w : World) : kept w (fst (loop_except e w)).
Proof.
  unfold loop_except.
  destruct (exn_type e); simpl; try apply kept_refl;
    unfold kept; simpl; auto.
Qed.

(** The loop keeps the round, the clock and the types of the settings. *)
Lemma kept_repl (inputs : list input_event) (w : World) :
  kept w (fst (repl inputs w)).
Proof.
  revert w. induction inputs as [|i rest IH]; intros w; simpl;
    destruct (has_started (game w) && negb (has_stopped (game w)));
    try apply kept_refl.
  - pose proof (keeps_bind prompt (fun p => emit (Stdout p)) keeps_prompt
                  (fun p => keeps_emit _) w) as K.
    destruct ((p <- prompt;; emit (Stdout p)) w) as [w' [u|e]]; simpl in *;
      [exact K|].
    eapply kept_trans; [exact K | apply kept_loop_except].
  - pose proof (keeps_bind (get_user_input i) process_user_input
                  (keeps_get_user_input i) keeps_process_user_input w) as K.
    destruct ((line <- get_user_input i;; process_user_input line) w)
      as [w' [u|e]]; simpl in *.
    + eapply kept_trans; [exact K | apply IH].
    + eapply kept_trans; [exact K | apply kept_loop_except].
Qed.

(** ** The settings [get] and [set] find *)

Lemma property_names_iff (name : string) :
  In name ["edge"; "soldiers"; "prompt"] <->
  exists fget fset, dict_get GameConfig_dict name = Some (Property fget fset).
Proof.
  split.
  - intros [<-|[<-|[<-|[]]]]; simpl; eauto.
  - intros (fget & fset & H).
    destruct (property_names _ _ _ H) as [-> | [-> | ->]]; simpl; auto.
Qed.

Lemma GetSetting_loop_found (setting : string) (fget : GameConfig -> pyval)
  (fset : GameConfig -> pyval -> GameConfig) (w : World) :
  dict_get GameConfig_dict setting = Some (Property fget fset) ->
  GetSetting_loop GameConfig_dict setting w
  = (w, Ok (Some (py_repr (fget (_config (game w)))))).
Proof.
  intros H.
  destruct (property_names _ _ _ H) as [-> | [-> | ->]];
    simpl in H; injection H; intros <- <-; reflexivity.
Qed.

Lemma SetSetting_loop_found (setting value : string)
  (fget : GameConfig -> pyval) (fset : GameConfig -> pyval -> GameConfig) :
  dict_get GameConfig_dict setting = Some (Property fget fset) ->
  SetSetting_loop GameConfig_dict setting value = SetSetting_try setting value.
Proof.
  intros H.
  destruct (property_names _ _ _ H) as [-> | [-> | ->]]; reflexivity.
Qed.

Ltac split_names setting :=
  unfold GameConfig_dict;
  cbn [GetSetting_loop SetSetting_loop isinstance_property negb andb orb];
  repeat match goal with
         | |- context [String.eqb ?a setting] =>
             destruct (String.eqb_spec a setting) as [<-|_];
             cbn [negb andb orb]
         end.

Lemma GetSetting_loop_unknown (setting : string) (w : World) :
  ~ In setting ["edge"; "soldiers"; "prompt"] ->
  GetSetting_loop GameConfig_dict setting w
  = (w, Raise (GameActionError_of ("Unknown setting: " ++ setting))).
Proof.
  intros H. split_names setting;
    try reflexivity; exfalso; apply H; simpl; auto.
Qed.

Lemma SetSetting_loop_unknown (setting value : string) (w : World) :
  ~ In setting ["edge"; "soldiers"; "prompt"] ->
  SetSetting_loop GameConfig_dict setting value w
  = (w, Raise (GameActionError_of ("Unknown setting: " ++ setting))).
Proof.
  intros H. split_names setting;
    try reflexivity; exfalso; apply H; simpl; auto.
Qed.

(** What the [try] statement of [set] does, by the outcome of the
    conversion. *)
Lemma SetSetting_try_spec (w : World) (setting value : string)
  (fget : GameConfig -> pyval) (fset : GameConfig -> pyval -> GameConfig) :
  dict_get GameConfig_dict setting = Some (Property fget fset) ->
  SetSetting_try setting value w =
  match call_type (type_of (fget (_config (game w)))) value with
  | Ok v =>
      let c' := fset (_config (game w)) v in
      (with_event (with_config w c')
         (Debug (dquoted setting ++ " set to " ++ py_str (fget c'))),
       Ok None)
  | Raise e =>
      match exn_type e with
      | ValueError =>
          (w, Raise (GameActionError_of ("Illegal value for setting: " ++ setting)))
      | _ => (w, Raise e)
      end
  end.
Proof.
  intros H.
  destruct (call_type (type_of (fget (_config (game w)))) value)
    as [v|[[] msg]] eqn:Hc;
    unfold SetSetting_try, getattr, setattr; rewrite H;
    cbv beta iota delta [try_except bind get_game put_game emit ret raise];
    rewrite Hc; reflexivity.
Qed.

Lemma property_get_set (setting : string) (fget : GameConfig -> pyval)
  (fset : GameConfig -> pyval -> GameConfig) (c : GameConfig) (v : pyval) :
  dict_get GameConfig_dict setting = Some (Property fget fset) ->
  fget (fset c v) = v.
Proof.
  intros H.
  destruct (property_names _ _ _ H) as [-> | [-> | ->]];
    simpl in H; injection H; intros <- <-; reflexivity.
Qed.

Lemma py_int_raises_ValueError (s : string) (e : exn) :
  py_int s = Raise e -> exn_type e = ValueError.
Proof.
  unfold py_int.
  destruct (match int_strip s with
            | String "-" rest => (true, rest)
            | String "+" rest => (false, rest)
            | _ => (false, int_strip s)
            end) as [neg digits].
  destruct (int_digits digits None 0 0) as [[n count]|].
  - destruct (Nat.ltb _ _); [now intros [= <-] | discriminate].
  - now intros [= <-].
Qed.

(** The separators FS GS RS US, which [str.strip()] drops, are no white
    space for [int()]: next to a digit they make the literal malformed. *)
Lemma py_int_refuses_separators (n : N) :
  (28 <= n <= 31)%N ->
  (exists e, py_int (String (ascii_of_N n) "5") = Raise e)
  /\ exists e, py_int (String "5" (String (ascii_of_N n) "")) = Raise e.
Proof.
  intros H.
  assert (Hn : n = 28%N \/ n = 29%N \/ n = 30%N \/ n = 31%N) by lia.
  destruct Hn as [-> | [-> | [-> | ->]]]; split; eexists; reflexivity.
Qed.

(** ** The [set] action *)

Lemma SetSetting_run_found (w : World) (setting value : string)
  (fget : GameConfig -> pyval) (fset : GameConfig -> pyval -> GameConfig) :
  dict_get GameConfig_dict setting = Some (Property fget fset) ->
  SetSetting_run (Some setting) (Some value) w = SetSetting_try setting value w.
Proof.
  intros H. unfold SetSetting_run.
  now rewrite (SetSetting_loop_found _ _ _ _ H).
Qed.

Lemma SetSetting_run_ValueError (w : World) (setting value : string) (e : exn)
  (fget : GameConfig -> pyval) (fset : GameConfig -> pyval -> GameConfig) :
  dict_get GameConfig_dict setting = Some (Property fget fset) ->
  call_type (type_of (fget (_config (game w)))) value = Raise e ->
  exn_type e = ValueError ->
  SetSetting_run (Some setting) (Some value) w
  = (w, Raise (GameActionError_of ("Illegal value for setting: " ++ setting))).
Proof.
  intros H He Hc.
  rewrite (SetSetting_run_found _ _ _ _ _ H), (SetSetting_try_spec _ _ _ _ _ H).
  rewrite He, Hc. reflexivity.
Qed.

(** C2 (as amended): for a discoverable setting, a value string that
    converts to the type of the setting's current value is stored by
    [set], which returns nothing, whether or not the value lies within
    the bounds [validate] checks; [set] raises the illegal-value error
    naming the setting, and leaves the session as it was, when the
    conversion raises [ValueError]. *)
Theorem set_stores_whatever_converts :
  forall (w : World) (setting value : string)
         (fget : GameConfig -> pyval) (fset : GameConfig -> pyval -> GameConfig),
    dict_get GameConfig_dict setting = Some (Property fget fset) ->
    (forall v,
        call_type (type_of (fget (_config (game w)))) value = Ok v ->
        SetSetting_run (Some setting) (Some value) w
        = (with_event (with_config w (fset (_config (game w)) v))
             (Debug (dquoted setting ++ " set to " ++ py_str v)),
           Ok None)
        /\ fget (fset (_config (game w)) v) = v)
    /\ (forall e,
          call_type (type_of (fget (_config (game w)))) value = Raise e ->
          exn_type e = ValueError ->
          SetSetting_run (Some setting) (Some value) w
          = (w, Raise (GameActionError_of
                         ("Illegal value for setting: " ++ setting)))).
Proof.
  intros w setting value fget fset H. split.
  - intros v Hv.
    rewrite (SetSetting_run_found _ _ _ _ _ H), (SetSetting_try_spec _ _ _ _ _ H).
    rewrite Hv. cbv zeta.
    rewrite (property_get_set _ _ _ _ _ H). auto.
  - intros e. exact (SetSetting_run_ValueError w setting value e fget fset H).
Qed.

Lemma set_stores_whatever_converts_witness :
  SetSetting_run (Some "edge") (Some "999") started_world
  = (with_event
       (with_config started_world
          (mkGameConfig (PyInt 999) (PyStr PROMPT) (PyInt SOLDIERS)))
       (Debug (dquoted "edge" ++ " set to " ++ "999")),
     Ok None).
Proof.
  exact (proj1 (proj1 (set_stores_whatever_converts started_world
                         "edge" "999" _ _ eq_refl)
                  (PyInt 999) eq_refl)).
Defined.

(** C2, as the claim has it, fails: [set edge 999] converts, the value is
    outside the bounds of [validate], and the action neither raises nor
    leaves the setting alone. *)
Lemma set_edge_999_is_not_refused :
  ~ (forall (w : World) (value : string) (n : Z),
       py_int value = Ok n ->
       validate (mkGameConfig (PyInt n) (_prompt (_config (game w)))
                   (_soldiers (_config (game w)))) <> Ok tt ->
       SetSetting_run (Some "edge") (Some value) w
       = (w, Raise (GameActionError_of "Illegal value for setting: edge"))).
Proof.
  intros H.
  assert (Hv : validate (mkGameConfig (PyInt 999)
                           (_prompt (_config (game started_world)))
                           (_soldiers (_config (game started_world)))) <> Ok tt)
    by (vm_compute; discriminate).
  specialize (H started_world "999" 999 eq_refl Hv).
  apply (f_equal snd) in H. vm_compute in H. discriminate H.
Qed.

(** C5: a value string that [int()] does not parse makes [set], on a
    setting that holds an integer, raise the illegal-value error naming
    the setting, with the session (so the stored value) as it was; typed
    as a command, the error is written as one line on standard error and
    nothing else changes. *)
Theorem set_unparsable_integer_is_illegal_value :
  forall (w : World) (setting value : string) (e : exn)
         (fget : GameConfig -> pyval) (fset : GameConfig -> pyval -> GameConfig),
    dict_get GameConfig_dict setting = Some (Property fget fset) ->
    type_of (fget (_config (game w))) = TInt ->
    py_int value = Raise e ->
    SetSetting_run (Some setting) (Some value) w
    = (w, Raise (GameActionError_of ("Illegal value for setting: " ++ setting)))
    /\ forall line,
        line <> "" ->
        shlex_split (py_strip line) = Ok ["set"; setting; value] ->
        process_user_input line w
        = (with_event w
             (Stderr ("ERROR: Illegal value for setting: " ++ setting ++ LF)),
           Ok tt).
Proof.
  intros w setting value e fget fset H Ht He.
  assert (Hrun : SetSetting_run (Some setting) (Some value) w
                 = (w, Raise (GameActionError_of
                                ("Illegal value for setting: " ++ setting)))).
  { apply (SetSetting_run_ValueError w setting value e fget fset H).
    - rewrite Ht. simpl. rewrite He. reflexivity.
    - exact (py_int_raises_ValueError _ _ He). }
  split; [exact Hrun|].
  intros line Hne Hs.
  rewrite (process_user_input_tokens _ _ _ _ Hne Hs).
  unfold bind at 1, dispatch, try_except, bind, lookup_action.
  cbn [dict_get _actions String.eqb Ascii.eqb Bool.eqb ret run].
  rewrite Hrun. reflexivity.
Qed.

Lemma set_unparsable_integer_is_illegal_value_witness :
  SetSetting_run (Some "soldiers") (Some "abc") started_world
  = (started_world,
     Raise (GameActionError_of "Illegal value for setting: soldiers"))
  /\ process_user_input "set soldiers abc" started_world
     = (with_event started_world
          (Stderr ("ERROR: Illegal value for setting: soldiers" ++ LF)),
        Ok tt).
Proof.
  destruct (set_unparsable_integer_is_illegal_value started_world
              "soldiers" "abc" _ _ _ eq_refl eq_refl eq_refl) as [H1 H2].
  split; [exact H1|].
  apply H2; [discriminate | reflexivity].
Defined.

(** The session [main] starts holds an integer edge, an integer soldier
    count and a string prompt, and so does every session the loop
    reaches from it. *)
Lemma boot_typed (clk : nat -> string) (w : World) :
  snd (boot clk) = Ok w -> typed (_config (game w)).
Proof. intros [= <-]. unfold typed; simpl; auto. Qed.

Lemma settings_keep_their_types (clk : nat -> string)
  (inputs : list input_event) (w : World) :
  snd (boot clk) = Ok w ->
  typed (_config (game (fst (repl inputs w)))).
Proof.
  intros H. apply (kept_repl inputs w). exact (boot_typed clk w H).
Qed.

(** C9: [set prompt v] succeeds for every string [v], returns nothing and
    stores [v] as it is, the other settings untouched; typed as a command
    it writes neither an output line nor an error line.  The prompt holds
    a string in every session of [main] ([settings_keep_their_types]). *)
Theorem set_prompt_takes_any_string :
  forall (w : World) (v : string),
    type_of (_prompt (_config (game w))) = TStr ->
    let w' :=
      with_event
        (with_config w
           (mkGameConfig (_edge (_config (game w))) (PyStr v)
              (_soldiers (_config (game w)))))
        (Debug (dquoted "prompt" ++ " set to " ++ v)) in
    SetSetting_run (Some "prompt") (Some v) w = (w', Ok None)
    /\ forall line,
        line <> "" ->
        shlex_split (py_strip line) = Ok ["set"; "prompt"; v] ->
        process_user_input line w = (w', Ok tt).
Proof.
  intros w v Ht w'.
  assert (Hrun : SetSetting_run (Some "prompt") (Some v) w = (w', Ok None)).
  { rewrite (SetSetting_run_found w "prompt" v _ _ eq_refl).
    rewrite (SetSetting_try_spec w "prompt" v _ _ eq_refl).
    rewrite Ht. reflexivity. }
  split; [exact Hrun|].
  intros line Hne Hs.
  rewrite (process_user_input_tokens _ _ _ _ Hne Hs).
  unfold bind at 1, dispatch, try_except, bind, lookup_action.
  cbn [dict_get _actions String.eqb Ascii.eqb Bool.eqb ret run].
  rewrite Hrun. reflexivity.
Qed.

Lemma set_prompt_takes_any_string_witness :
  process_user_input "set prompt '%r> '" started_world
  = (with_event
       (with_config started_world
          (mkGameConfig (PyInt EDGE) (PyStr "%r> ") (PyInt SOLDIERS)))
       (Debug (dquoted "prompt" ++ " set to " ++ "%r> ")),
     Ok tt).
Proof.
  apply (proj2 (set_prompt_takes_any_string started_world "%r> " eq_refl));
    [discriminate | reflexivity].
Defined.

(** ** The registry of settings *)

Lemma property_get_other (a b : string)
  (fget fget' : GameConfig -> pyval)
  (fset fset' : GameConfig -> pyval -> GameConfig) (c : GameConfig) (v : pyval) :
  dict_get GameConfig_dict a = Some (Property fget fset) ->
  dict_get GameConfig_dict b = Some (Property fget' fset') ->
  a <> b ->
  fget' (fset c v) = fget' c.
Proof.
  intros Ha Hb Hab.
  destruct (property_names _ _ _ Ha) as [-> | [-> | ->]];
    destruct (property_names _ _ _ Hb) as [-> | [-> | ->]];
    try (now elim Hab);
    simpl in Ha, Hb; injection Ha; intros <- <-; injection Hb; intros <- <-;
    reflexivity.
Qed.

(** C6: the settings [get] and [set] find are exactly [edge], [soldiers]
    and [prompt], the names under which the class dictionary holds a
    property.  For each of them [get] returns the [repr] of the value and
    leaves the session as it was; [set] never raises the unknown-setting
    error, and for every value string that converts it returns nothing
    and leaves the session with the converted value stored in that
    setting, the other settings as they were and one record logged; the
    string 7 is such a value whenever the settings hold values of their
    types.  For any other name, compared character by character, both
    raise the unknown-setting error and leave the session as it was. *)
Theorem settings_are_edge_soldiers_prompt :
  forall (w : World) (setting : string),
    (In setting ["edge"; "soldiers"; "prompt"] <->
     exists fget fset,
       dict_get GameConfig_dict setting = Some (Property fget fset))
    /\ (forall fget fset,
          dict_get GameConfig_dict setting = Some (Property fget fset) ->
          GetSetting_run (Some setting) w
          = (w, Ok (Some (py_repr (fget (_config (game w))))))
          /\ (forall value,
                snd (SetSetting_run (Some setting) (Some value) w)
                <> Raise (GameActionError_of ("Unknown setting: " ++ setting)))
          /\ (forall value v,
                call_type (type_of (fget (_config (game w)))) value = Ok v ->
                SetSetting_run (Some setting) (Some value) w
                = (with_event (with_config w (fset (_config (game w)) v))
                     (Debug (dquoted setting ++ " set to " ++ py_str v)),
                   Ok None)
                /\ fget (fset (_config (game w)) v) = v
                /\ forall other fget' fset',
                    dict_get GameConfig_dict other = Some (Property fget' fset') ->
                    other <> setting ->
                    fget' (fset (_config (game w)) v) = fget' (_config (game w)))
          /\ (typed (_config (game w)) ->
              exists v,
                (v = PyInt 7 \/ v = PyStr "7")
                /\ SetSetting_run (Some setting) (Some "7") w
                   = (with_event (with_config w (fset (_config (game w)) v))
                        (Debug (dquoted setting ++ " set to " ++ "7")),
                      Ok None)
                /\ fget (fset (_config (game w)) v) = v))
    /\ (~ In setting ["edge"; "soldiers"; "prompt"] ->
        GetSetting_run (Some setting) w
        = (w, Raise (GameActionError_of ("Unknown setting: " ++ setting)))
        /\ forall value,
            SetSetting_run (Some setting) (Some value) w
            = (w, Raise (GameActionError_of ("Unknown setting: " ++ setting)))).
Proof.
  intros w setting. split; [apply property_names_iff|]. split.
  - intros fget fset H.
    assert (Hstore : forall value v,
               call_type (type_of (fget (_config (game w)))) value = Ok v ->
               SetSetting_run (Some setting) (Some value) w
               = (with_event (with_config w (fset (_config (game w)) v))
                    (Debug (dquoted setting ++ " set to " ++ py_str v)),
                  Ok None)).
    { intros value v Hv.
      rewrite (SetSetting_run_found _ _ _ _ _ H), (SetSetting_try_spec _ _ _ _ _ H).
      rewrite Hv. cbv zeta. now rewrite (property_get_set _ _ _ _ _ H). }
    split; [|split; [|split]].
    + exact (GetSetting_loop_found setting fget fset w H).
    + intros value.
      rewrite (SetSetting_run_found _ _ _ _ _ H), (SetSetting_try_spec _ _ _ _ _ H).
      destruct (call_type _ value) as [v|[[] msg]] eqn:Hc; simpl;
        try discriminate.
      exfalso. destruct (type_of _); simpl in Hc; try discriminate Hc.
      destruct (py_int value) eqn:Hp; [discriminate Hc|].
      injection Hc as ->. apply py_int_raises_ValueError in Hp.
      discriminate Hp.
    + intros value v Hv. split; [exact (Hstore value v Hv)|].
      split; [exact (property_get_set _ _ _ _ _ H)|].
      intros other fget' fset' Ho Hne.
      apply (property_get_other setting other fget fget' fset fset' _ _ H Ho).
      congruence.
    + intros (He & Hp & Hs).
      assert (Hv : exists v, (v = PyInt 7 \/ v = PyStr "7")
                             /\ call_type (type_of (fget (_config (game w)))) "7"
                                = Ok v /\ py_str v = "7").
      { destruct (property_names _ _ _ H) as [-> | [-> | ->]];
          simpl in H; injection H; intros <- <-;
          rewrite ?He, ?Hp, ?Hs;
          [exists (PyInt 7) | exists (PyStr "7") | exists (PyInt 7)];
          repeat split; auto. }
      destruct Hv as (v & Hv7 & Hc & Hstr). exists v.
      split; [exact Hv7|]. split.
      * rewrite (Hstore "7" v Hc), Hstr. reflexivity.
      * exact (property_get_set _ _ _ _ _ H).
  - intros H. split; [exact (GetSetting_loop_unknown setting w H)|].
    intros value. exact (SetSetting_loop_unknown setting value w H).
Qed.

Lemma settings_are_edge_soldiers_prompt_witness :
  GetSetting_run (Some "edge") started_world = (started_world, Ok (Some "20"))
  /\ SetSetting_run (Some "soldiers") (Some "12") started_world
     = (with_event
          (with_config started_world
             (mkGameConfig (PyInt EDGE) (PyStr PROMPT) (PyInt 12)))
          (Debug (dquoted "soldiers" ++ " set to " ++ "12")),
        Ok None)
  /\ GetSetting_run (Some "Edge") started_world
     = (started_world, Raise (GameActionError_of "Unknown setting: Edge"))
  /\ SetSetting_run (Some "bogus") (Some "1") started_world
     = (started_world, Raise (GameActionError_of "Unknown setting: bogus")).
Proof.
  split; [|split; [|split]].
  - exact (proj1 (proj1 (proj2 (settings_are_edge_soldiers_prompt
                                  started_world "edge")) _ _ eq_refl)).
  - exact (proj1 (proj1 (proj2 (proj2 (proj1 (proj2
             (settings_are_edge_soldiers_prompt started_world "soldiers"))
             _ _ eq_refl))) "12" (PyInt 12) eq_refl)).
  - apply (proj2 (proj2 (settings_are_edge_soldiers_prompt started_world "Edge"))).
    simpl. intros [H|[H|[H|[]]]]; discriminate H.
  - apply (proj2 (proj2 (settings_are_edge_soldiers_prompt started_world "bogus"))).
    simpl. intros [H|[H|[H|[]]]]; discriminate H.
Defined.

(** ** Rendering the prompt *)

Lemma append_assoc (a b c : string) : (a ++ b) ++ c = a ++ (b ++ c).
Proof. induction a as [|x a IH]; simpl; [reflexivity | now rewrite IH]. Qed.

Lemma prompt_sub_cons2 (c k : ascii) (rest : string) :
  prompt_sub (String c (String k rest))
  = if (c =? "%")%char then
      match prompt_map_get PROMPT_MAP k with
      | Some p => v <- call_provider p ;; r <- prompt_sub rest ;; ret (v ++ r)
      | None => r <- prompt_sub (String k rest) ;; ret (String c r)
      end
    else r <- prompt_sub (String k rest) ;; ret (String c r).
Proof. reflexivity. Qed.

Lemma prompt_sub_cons1 (c : ascii) (w : World) :
  prompt_sub (String c "") w = (w, Ok (String c "")).
Proof. simpl. destruct (c =? "%")%char; reflexivity. Qed.

Lemma call_provider_total (p : provider) (w : World) :
  exists w' v, call_provider p w = (w', Ok v).
Proof. destruct p; do 2 eexists; reflexivity. Qed.

(** Rendering never raises. *)
Lemma prompt_sub_total (template : string) :
  forall w, exists w' r, prompt_sub template w = (w', Ok r).
Proof.
  induction template as [|c|c k rest IH1 IH2] using template_ind; intros w.
  - do 2 eexists; reflexivity.
  - rewrite prompt_sub_cons1; do 2 eexists; reflexivity.
  - rewrite prompt_sub_cons2.
    assert (Hcopy : exists w' r,
               (r <- prompt_sub (String k rest) ;; ret (String c r)) w = (w', Ok r)).
    { unfold bind. destruct (IH2 w) as (w' & r & ->). do 2 eexists; reflexivity. }
    destruct (c =? "%")%char; [|exact Hcopy].
    destruct (prompt_map_get PROMPT_MAP k) as [p|]; [|exact Hcopy].
    unfold bind. destruct (call_provider_total p w) as (w1 & v & ->).
    destruct (IH1 w1) as (w2 & r & ->). do 2 eexists; reflexivity.
Qed.

(** A template can be cut in front of any percent sign: what stands
    before it is rendered on its own. *)
Lemma prompt_sub_app_percent (a s : string) :
  forall w w1 w2 ra rs,
    prompt_sub a w = (w1, Ok ra) ->
    prompt_sub (String "%" s) w1 = (w2, Ok rs) ->
    prompt_sub (a ++ String "%" s) w = (w2, Ok (ra ++ rs)).
Proof.
  induction a as [|c|c k rest IH1 IH2] using template_ind;
    intros w w1 w2 ra rs Ha Hs.
  - simpl in Ha. injection Ha as <- <-. exact Hs.
  - rewrite prompt_sub_cons1 in Ha. injection Ha as <- <-.
    change (String c "" ++ String "%" s) with (String c (String "%" s)).
    rewrite prompt_sub_cons2. change (prompt_map_get PROMPT_MAP "%") with (@None provider).
    assert (Hcopy : (r <- prompt_sub (String "%" s) ;; ret (String c r)) w
                    = (w2, Ok (String c "" ++ rs)))
      by (unfold bind; rewrite Hs; reflexivity).
    destruct (c =? "%")%char; exact Hcopy.
  - change (String c (String k rest) ++ String "%" s)
      with (String c (String k (rest ++ String "%" s))).
    rewrite prompt_sub_cons2 in Ha. rewrite prompt_sub_cons2.
    assert (Hcopy :
              (r <- prompt_sub (String k rest) ;; ret (String c r)) w = (w1, Ok ra) ->
              (r <- prompt_sub (String k (rest ++ String "%" s)) ;; ret (String c r)) w
              = (w2, Ok (ra ++ rs))).
    { unfold bind. intros H.
      destruct (prompt_sub (String k rest) w) as [wa [r|e]] eqn:Hk;
        [|discriminate H].
      injection H as <- <-.
      change (String k (rest ++ String "%" s)) with (String k rest ++ String "%" s).
      rewrite (IH2 _ _ _ _ _ Hk Hs). reflexivity. }
    destruct (c =? "%")%char; [|exact (Hcopy Ha)].
    destruct (prompt_map_get PROMPT_MAP k) as [p|]; [|exact (Hcopy Ha)].
    unfold bind in *.
    destruct (call_provider p w) as [wa [v|e]]; [|discriminate Ha].
    destruct (prompt_sub rest wa) as [wb [r|e]] eqn:Hr; [|discriminate Ha].
    injection Ha as <- <-.
    rewrite (IH1 _ _ _ _ _ Hr Hs). simpl. now rewrite append_assoc.
Qed.


Lemma prompt_sub_registered (a b : string) (k : ascii) (p : provider) :
  forall w w1 w2 w3 ra v rb,
    prompt_map_get PROMPT_MAP k = Some p ->
    prompt_sub a w = (w1, Ok ra) ->
    call_provider p w1 = (w2, Ok v) ->
    prompt_sub b w2 = (w3, Ok rb) ->
    prompt_sub (a ++ String "%" (String k b)) w = (w3, Ok (ra ++ v ++ rb)).
Proof.
  intros w w1 w2 w3 ra v rb Hk Ha Hv Hb.
  apply (prompt_sub_app_percent a (String k b) w w1 w3 ra (v ++ rb) Ha).
  rewrite prompt_sub_cons2. simpl (_ =? _)%char. rewrite Hk.
  unfold bind. rewrite Hv, Hb. reflexivity.
Qed.


(** A character other than the percent sign is copied. *)
Lemma prompt_sub_plain (c : ascii) (b : string) :
  forall w w' rb,
    c <> "%"%char ->
    prompt_sub b w = (w', Ok rb) ->
    prompt_sub (String c b) w = (w', Ok (String c rb)).
Proof.
  intros w w' rb Hc Hb. apply Ascii.eqb_neq in Hc.
  destruct b as [|k rest].
  - simpl in Hb. injection Hb as <- <-. apply prompt_sub_cons1.
  - rewrite prompt_sub_cons2, Hc. unfold bind. rewrite Hb. reflexivity.
Qed.



(** ** The round counter *)

Lemma round_start (w : World) : _round (game (fst (start w))) = _round (game w).
Proof. reflexivity. Qed.

(** C10: the round is 0 when the session is built and no operation
    changes it: not [start] or [stop], not rendering the prompt or reading
    a line, not [get], [set] or [quit], not the dispatch of any input
    line; so it is 0 in every session the loop of [main] reaches, where
    [%r] renders as 0. *)
Theorem round_is_always_zero :
  (forall config log clk, _round (game (Game_init config log clk)) = 0)
  /\ (forall w,
        _round (game (fst (start w))) = _round (game w)
        /\ _round (game (fst (stop w))) = _round (game w)
        /\ _round (game (fst (prompt w))) = _round (game w))
  /\ (forall w i, _round (game (fst (get_user_input i w))) = _round (game w))
  /\ (forall w a arguments,
        _round (game (fst (run a arguments w))) = _round (game w))
  /\ (forall w line,
        _round (game (fst (process_user_input line w))) = _round (game w))
  /\ (forall clk inputs w,
        snd (boot clk) = Ok w ->
        _round (game (fst (repl inputs w))) = 0)
  /\ (forall a b w w1 w2 ra rb,
        _round (game w) = 0 ->
        prompt_sub a w = (w1, Ok ra) ->
        prompt_sub b w1 = (w2, Ok rb) ->
        prompt_sub (a ++ "%r" ++ b) w = (w2, Ok (ra ++ "0" ++ rb))).
Proof.
  split; [reflexivity|].
  split; [intros w; repeat split; try reflexivity; apply (keeps_prompt w)|].
  split; [intros w i; apply (keeps_get_user_input i w)|].
  split; [intros w a arguments; apply (keeps_run a arguments w)|].
  split; [intros w line; apply (keeps_process_user_input line w)|].
  split.
  - intros clk inputs w H.
    destruct (kept_repl inputs w) as [-> _].
    injection H as <-. reflexivity.
  - intros a b w w1 w2 ra rb Hr Ha Hb.
    apply (prompt_sub_registered a b "r" RoundProvider w w1 w1 w2 ra "0" rb
             eq_refl Ha); [|exact Hb].
    pose proof (keeps_prompt_sub a w) as K. rewrite Ha in K.
    destruct K as [K _]. simpl in K.
    unfold call_provider, bind, get_game, ret. rewrite K, Hr. reflexivity.
Qed.

Lemma round_is_always_zero_witness :
  _round (game (fst (repl [Line "set edge 3"; Line "bogus"; Line "quit"]
                       started_world))) = 0
  /\ prompt_sub ("round " ++ "%r" ++ "> ") started_world
     = (started_world, Ok ("round " ++ "0" ++ "> ")).
Proof.
  destruct round_is_always_zero as (_ & _ & _ & _ & _ & Hrun & Hrender).
  split.
  - exact (Hrun (fun _ => "1700000000") _ started_world eq_refl).
  - apply (Hrender "round " "> " started_world started_world started_world);
      reflexivity.
Defined.

(** ** The lifecycle *)

Lemma stopped_stays (m : M unit) (w : World) :
  keeps m -> _state (game w) = STOPPED -> _state (game (fst (m w))) = STOPPED.
Proof.
  intros K H. destruct (K w) as (_ & _ & _ & [S|S]); congruence.
Qed.

(** C7 (as amended): [quit] typed in the [STARTED] state sets the state to
    [STOPPING] and then to [STOPPED], logging both, and returns nothing;
    in the [STOPPED] state the loop's test is false and the loop returns
    without reading any input, and every line the loop could dispatch
    ends in [STOPPED] again.  A run of [main] returns at [quit] whatever
    follows it. *)
Theorem quit_stops_and_the_loop_ends :
  forall w : World,
    (_state (game w) = STARTED ->
     _state (game (fst (set_state STOPPING w))) = STOPPING
     /\ stop w = (set_state STOPPING ;;; set_state STOPPED) w
     /\ process_user_input "quit" w
        = (mkWorld (mkGame (_config (game w)) (_round (game w)) STOPPED)
             (events w ++ [Debug (dquoted "state" ++ " set to STOPPING");
                           Debug (dquoted "state" ++ " set to STOPPED")])%list
             (ticks w) (clock w),
           Ok tt))
    /\ (_state (game w) = STOPPED ->
        has_started (game w) && negb (has_stopped (game w)) = false
        /\ (forall inputs, repl inputs w = (w, Returned))
        /\ (forall line,
              _state (game (fst (process_user_input line w))) = STOPPED))
    /\ (forall clk rest, snd (main clk (Line "quit" :: rest)) = Returned).
Proof.
  intros w. split; [|split].
  - intros _. split; [reflexivity|]. split; [reflexivity|].
    unfold process_user_input, bind, dispatch, try_except; simpl.
    now rewrite <- app_assoc.
  - intros H.
    assert (Hloop : has_started (game w) && negb (has_stopped (game w)) = false)
      by (unfold has_started, has_stopped; rewrite H; reflexivity).
    split; [exact Hloop|]. split.
    + intros [|i rest]; simpl; rewrite Hloop; reflexivity.
    + intros line.
      exact (stopped_stays _ w (keeps_process_user_input line) H).
  - intros clk [|i rest]; reflexivity.
Qed.

Lemma quit_stops_and_the_loop_ends_witness :
  process_user_input "quit" started_world
  = (mkWorld (mkGame (_config (game started_world)) 0 STOPPED)
       (events started_world
        ++ [Debug (dquoted "state" ++ " set to STOPPING");
            Debug (dquoted "state" ++ " set to STOPPED")])%list
       0 (clock started_world),
     Ok tt)
  /\ repl [Line "get edge"] (fst (stop started_world))
     = (fst (stop started_world), Returned).
Proof.
  split.
  - exact (proj2 (proj2 (proj1 (quit_stops_and_the_loop_ends started_world)
                           eq_refl))).
  - exact (proj1 (proj2 (proj1 (proj2 (quit_stops_and_the_loop_ends
                                        (fst (stop started_world))))
                           eq_refl)) [Line "get edge"]).
Defined.

(** C7, as the claim has it, fails: [Game.start] has no guard and takes a
    session out of [STOPPED]. *)
Lemma start_leaves_STOPPED :
  ~ (forall w : World,
       _state (game w) = STOPPED -> _state (game (fst (start w))) = STOPPED).
Proof.
  intros H. specialize (H (fst (stop started_world)) eq_refl).
  discriminate H.
Qed.

(** ** Input lines the dispatch does not survive *)

Lemma lstrip_all_space (s : string) : all_space s = true -> lstrip s = "".
Proof.
  induction s as [|c s IH]; simpl; [reflexivity|].
  destruct (py_isspace c); [exact IH | discriminate].
Qed.

Lemma strip_isspace (s : string) :
  isspace s = true -> s <> "" /\ py_strip s = "".
Proof.
  unfold isspace, py_strip. intros H. apply andb_true_iff in H as [Hn Ha].
  split.
  - apply String.eqb_neq. now apply negb_true_iff.
  - now rewrite (lstrip_all_space s Ha).
Qed.

(** C3, where the code departs from it: the empty line is the no-op the
    claim describes, but a line of white space only is not.  The test for
    emptiness reads the line as typed, not the stripped one, so such a
    line is split into no token at all; the unpacking raises
    [ValueError] outside the [try], and the loop of [main] ends with that
    exception instead of prompting again. *)
Theorem whitespace_line_raises_ValueError :
  forall (w : World) (line : string),
    process_user_input "" w = (w, Ok tt)
    /\ (isspace line = true ->
        process_user_input line w
        = (w, Raise (Exn ValueError
                       "not enough values to unpack (expected at least 1, got 0)"))
        /\ forall clk rest,
            snd (main clk (Line line :: rest))
            = Crashed
                (Exn ValueError
                   "not enough values to unpack (expected at least 1, got 0)")).
Proof.
  intros w line. split; [reflexivity|].
  intros Hs. destruct (strip_isspace line Hs) as [Hne Hstrip].
  assert (Hp : forall w0, process_user_input line w0
               = (w0, Raise (Exn ValueError
                    "not enough values to unpack (expected at least 1, got 0)"))).
  { intros w0. unfold process_user_input. apply String.eqb_neq in Hne.
    rewrite Hne, Hstrip. reflexivity. }
  split; [apply Hp|].
  intros clk rest. unfold main.
  cbn -[process_user_input]. rewrite Hp. reflexivity.
Qed.

Lemma whitespace_line_raises_ValueError_witness :
  process_user_input "   " started_world
  = (started_world,
     Raise (Exn ValueError
              "not enough values to unpack (expected at least 1, got 0)"))
  /\ snd (main (fun _ => "1700000000") [Line "   "; Line "quit"])
     = Crashed (Exn ValueError
                  "not enough values to unpack (expected at least 1, got 0)").
Proof.
  destruct (proj2 (whitespace_line_raises_ValueError started_world "   ")
              eq_refl) as [H1 H2].
  split; [exact H1 | apply H2].
Defined.

(** C4, where the code departs from it: the [try] of the dispatch catches
    [KeyError] and [GameActionError] only, and the line is split outside
    it.  A surplus argument makes the call of [run] raise [TypeError], an
    unclosed quote makes [shlex.split] raise [ValueError]; both leave
    [process_user_input] and end the loop of [main], with no line
    written on standard error. *)
Theorem surplus_argument_ends_the_loop :
  forall (w : World) (clk : nat -> string) (rest : list input_event),
    process_user_input "get edge extra" w
    = (w, Raise (too_many_arguments GetSetting 2))
    /\ snd (main clk (Line "get edge extra" :: rest))
       = Crashed (too_many_arguments GetSetting 2)
    /\ process_user_input "quit now" w
       = (w, Raise (too_many_arguments QuitGame 1))
    /\ process_user_input "get 'edge" w
       = (w, Raise (Exn ValueError "No closing quotation"))
    /\ snd (main clk (Line "get 'edge" :: rest))
       = Crashed (Exn ValueError "No closing quotation").
Proof.
  intros w clk rest. repeat split; reflexivity.
Qed.

(** * Further properties of the program *)

(** ** Errors of the dispatch *)

Lemma unknown_action_lookup (action : string) :
  action <> "get" -> action <> "quit" -> action <> "set" ->
  dict_get _actions action = None.
Proof.
  intros Hg Hq Hs. unfold _actions. cbn [dict_get].
  destruct (String.eqb_spec "get" action) as [E|_]; [now subst|].
  destruct (String.eqb_spec "quit" action) as [E|_]; [now subst|].
  destruct (String.eqb_spec "set" action) as [E|_]; [now subst|].
  reflexivity.
Qed.

(** X1: a verb other than [get], [quit] and [set] is answered, whatever
    its arguments, by the one line [ERROR: Unknown action: <verb>] on
    standard error; nothing else is written and the session is as it
    was. *)
Theorem unknown_action_is_reported :
  forall (w : World) (action : string) (arguments : list string),
    action <> "get" -> action <> "quit" -> action <> "set" ->
    dispatch action arguments w
    = (with_event w (Stderr ("ERROR: Unknown action: " ++ action ++ LF)),
       Ok None)
    /\ forall line,
        line <> "" ->
        shlex_split (py_strip line) = Ok (action :: arguments) ->
        process_user_input line w
        = (with_event w (Stderr ("ERROR: Unknown action: " ++ action ++ LF)),
           Ok tt).
Proof.
  intros w action arguments Hg Hq Hs.
  assert (Hd : dispatch action arguments w
               = (with_event w (Stderr ("ERROR: Unknown action: " ++ action ++ LF)),
                  Ok None)).
  { unfold dispatch, try_except, bind, lookup_action.
    rewrite (unknown_action_lookup action Hg Hq Hs). reflexivity. }
  split; [exact Hd|].
  intros line Hne Hsplit.
  rewrite (process_user_input_tokens _ _ _ _ Hne Hsplit).
  unfold bind. rewrite Hd. reflexivity.
Qed.

Lemma unknown_action_is_reported_witness :
  process_user_input "foo 1 2" started_world
  = (with_event started_world (Stderr ("ERROR: Unknown action: " ++ "foo" ++ LF)),
     Ok tt).
Proof.
  apply (proj2 (unknown_action_is_reported started_world "foo" ["1"; "2"]
                  ltac:(discriminate) ltac:(discriminate) ltac:(discriminate)));
    [discriminate | reflexivity].
Defined.

(** X2: the arguments are checked before the setting is looked up.
    [get] and [set] without arguments report the missing setting, and
    [set] with one argument reports the missing value for any name, a
    setting or not; each is one line on standard error and the session is
    as it was. *)
Theorem missing_arguments_are_reported_first :
  forall (w : World) (setting : string),
    dispatch "get" [] w
    = (with_event w (Stderr ("ERROR: Missing argument: setting" ++ LF)), Ok None)
    /\ dispatch "set" [] w
       = (with_event w (Stderr ("ERROR: Missing argument: setting" ++ LF)), Ok None)
    /\ dispatch "set" [setting] w
       = (with_event w (Stderr ("ERROR: Missing argument: value" ++ LF)), Ok None).
Proof. intros w setting. repeat split; reflexivity. Qed.

(** ** Which error [validate] raises *)

(** X3: [validate] reports the first failing test in the order edge type,
    soldiers type, edge range, soldiers range: a later fault is masked by
    an earlier one, and the range messages carry the numbers 2 and 20,
    and 2 and 400. *)
Theorem validate_reports_first_fault :
  forall c : GameConfig,
    (type_of (_edge c) <> TInt ->
     validate c
     = Raise (Exn TypeError (dquoted "edge" ++ " must be of type integer")))
    /\ (type_of (_edge c) = TInt -> type_of (_soldiers c) <> TInt ->
        validate c
        = Raise (Exn TypeError (dquoted "soldiers" ++ " must be of type integer")))
    /\ (forall e s,
          _edge c = PyInt e -> _soldiers c = PyInt s ->
          e < 2 \/ 20 < e ->
          validate c
          = Raise (Exn ValueError (dquoted "edge" ++ " must be between 2 and 20")))
    /\ (forall e s,
          _edge c = PyInt e -> _soldiers c = PyInt s ->
          2 <= e <= 20 -> s < 2 \/ 400 < s ->
          validate c
          = Raise (Exn ValueError
                     (dquoted "soldiers" ++ " must be between 2 and 400"))).
Proof.
  intros c. unfold validate. repeat split.
  - destruct (_edge c); simpl; intros H; try reflexivity. now elim H.
  - destruct (_edge c); simpl; try discriminate. intros _.
    destruct (_soldiers c); simpl; intros H; try reflexivity. now elim H.
  - intros e s -> -> He.
    unfold MIN_EDGE, MAX_EDGE.
    replace ((e <? 2) || (e >? 20)) with true; [reflexivity|].
    symmetry. apply orb_true_iff. destruct He; [left | right]; lia.
  - intros e s -> -> He Hs.
    unfold MIN_EDGE, MAX_EDGE, MIN_SOLDIERS, MAX_SOLDIERS, EDGE, MAX_EDGE.
    change (20 ^ 2) with 400.
    replace ((e <? 2) || (e >? 20)) with false
      by (symmetry; apply orb_false_iff; split; lia).
    replace ((s <? 2) || (s >? 400)) with true; [reflexivity|].
    symmetry. apply orb_true_iff. destruct Hs; [left | right]; lia.
Qed.

Lemma validate_reports_first_fault_witness :
  validate (mkGameConfig (PyStr "x") (PyStr PROMPT) PyNone)
  = Raise (Exn TypeError (dquoted "edge" ++ " must be of type integer"))
  /\ validate (mkGameConfig (PyInt 99) (PyStr PROMPT) (PyBool true))
     = Raise (Exn TypeError (dquoted "soldiers" ++ " must be of type integer"))
  /\ validate (mkGameConfig (PyInt 21) (PyStr PROMPT) (PyInt 0))
     = Raise (Exn ValueError (dquoted "edge" ++ " must be between 2 and 20"))
  /\ validate (mkGameConfig (PyInt 3) (PyStr PROMPT) (PyInt 401))
     = Raise (Exn ValueError (dquoted "soldiers" ++ " must be between 2 and 400")).
Proof.
  split; [|split; [|split]].
  - apply (proj1 (validate_reports_first_fault _)). discriminate.
  - apply (proj1 (proj2 (validate_reports_first_fault _)));
      [reflexivity | discriminate].
  - apply (proj1 (proj2 (proj2 (validate_reports_first_fault _))) 21 0);
      [reflexivity | reflexivity | lia].
  - apply (proj2 (proj2 (proj2 (validate_reports_first_fault _))) 3 401);
      [reflexivity | reflexivity | lia | lia].
Defined.

(** ** What rendering the prompt touches *)

Lemma clock_only_refl (w : World) : clock_only w w.
Proof. unfold clock_only; auto. Qed.

Lemma clock_only_trans (a b c : World) :
  clock_only a b -> clock_only b c -> clock_only a c.
Proof.
  unfold clock_only. intros (G1 & E1 & C1 & T1) (G2 & E2 & C2 & T2).
  repeat split; try congruence. lia.
Qed.

Lemma call_provider_clock_only (p : provider) (w w' : World) (v : string) :
  call_provider p w = (w', Ok v) -> clock_only w w'.
Proof.
  destruct p; intros [= <- _]; unfold clock_only; simpl; auto.
Qed.

Lemma prompt_sub_clock_only (template : string) :
  forall w w' r, prompt_sub template w = (w', Ok r) -> clock_only w w'.
Proof.
  induction template as [|c|c k rest IH1 IH2] using template_ind;
    intros w w' r H.
  - injection H as <- _. apply clock_only_refl.
  - rewrite prompt_sub_cons1 in H. injection H as <- _. apply clock_only_refl.
  - rewrite prompt_sub_cons2 in H.
    assert (Hcopy : (r <- prompt_sub (String k rest) ;; ret (String c r)) w
                    = (w', Ok r) -> clock_only w w').
    { unfold bind. intros Hc.
      destruct (prompt_sub (String k rest) w) as [w1 [r1|e]] eqn:Hk;
        [|discriminate Hc].
      injection Hc as <- _. exact (IH2 _ _ _ Hk). }
    destruct (c =? "%")%char; [|exact (Hcopy H)].
    destruct (prompt_map_get PROMPT_MAP k) as [p|]; [|exact (Hcopy H)].
    unfold bind in H.
    destruct (call_provider p w) as [w1 [v|e]] eqn:Hv; [|discriminate H].
    destruct (prompt_sub rest w1) as [w2 [r2|e]] eqn:Hr; [|discriminate H].
    injection H as <- _.
    eapply clock_only_trans;
      [exact (call_provider_clock_only _ _ _ _ Hv) | exact (IH1 _ _ _ Hr)].
Qed.

Lemma prompt_sub_no_percent (template : string) (w : World) :
  contains "%" template = false -> prompt_sub template w = (w, Ok template).
Proof.
  induction template as [|c rest IH]; intros H; [reflexivity|].
  simpl in H. apply orb_false_iff in H as [Hc Hrest].
  apply prompt_sub_plain; [now apply Ascii.eqb_neq | exact (IH Hrest)].
Qed.

Lemma prompt_renders (w : World) (template : string) :
  _prompt (_config (game w)) = PyStr template ->
  exists w' text, prompt w = (w', Ok text) /\ clock_only w w'.
Proof.
  intros Hp. unfold prompt, bind, get_game. rewrite Hp.
  destruct (prompt_sub_total template w) as (w' & text & H).
  exists w', text. split; [exact H | exact (prompt_sub_clock_only _ _ _ _ H)].
Qed.

(** X4: rendering the prompt writes nothing and leaves the session alone:
    whatever the template, the only trace of a rendering is that the clock
    may have been read; a template without a percent sign is rendered as
    itself, and without reading the clock.  A prompt that is not a string
    makes the rendering raise [TypeError]. *)
Theorem rendering_only_reads_the_clock :
  forall w : World,
    (forall template,
        _prompt (_config (game w)) = PyStr template ->
        (exists w' text, prompt w = (w', Ok text) /\ clock_only w w')
        /\ (contains "%" template = false -> prompt w = (w, Ok template)))
    /\ (type_of (_prompt (_config (game w))) <> TStr ->
        exists msg, prompt w = (w, Raise (Exn TypeError msg))).
Proof.
  intros w. split.
  - intros template Hp. split; [exact (prompt_renders w template Hp)|].
    unfold prompt, bind, get_game. rewrite Hp.
    apply prompt_sub_no_percent.
  - intros Ht. unfold prompt, bind, get_game.
    destruct (_prompt (_config (game w))); try (eexists; reflexivity).
    now elim Ht.
Qed.

Lemma rendering_only_reads_the_clock_witness :
  (exists w' text, prompt started_world = (w', Ok text)
                   /\ clock_only started_world w')
  /\ prompt (with_config started_world
               (mkGameConfig (PyInt EDGE) (PyStr "> ") (PyInt SOLDIERS)))
     = (with_config started_world
          (mkGameConfig (PyInt EDGE) (PyStr "> ") (PyInt SOLDIERS)),
        Ok "> ")
  /\ exists msg,
      prompt (with_config started_world
                (mkGameConfig (PyInt EDGE) (PyInt 7) (PyInt SOLDIERS)))
      = (with_config started_world
           (mkGameConfig (PyInt EDGE) (PyInt 7) (PyInt SOLDIERS)),
         Raise (Exn TypeError msg)).
Proof.
  split; [|split].
  - exact (proj1 (proj1 (rendering_only_reads_the_clock started_world)
                    PROMPT eq_refl)).
  - exact (proj2 (proj1 (rendering_only_reads_the_clock
                           (with_config started_world
                              (mkGameConfig (PyInt EDGE) (PyStr "> ")
                                 (PyInt SOLDIERS))))
                    "> " eq_refl) eq_refl).
  - apply (proj2 (rendering_only_reads_the_clock
                    (with_config started_world
                       (mkGameConfig (PyInt EDGE) (PyInt 7) (PyInt SOLDIERS))))).
    discriminate.
Defined.

(** ** How the loop ends *)

Lemma loop_runs_iff (g : Game) :
  has_started g && negb (has_stopped g) = true <->
  _state g = STARTING \/ _state g = STARTED.
Proof.
  unfold has_started, has_stopped. destruct (_state g); simpl; split;
    try discriminate; auto; intros [H|H]; discriminate H.
Qed.

(** X5: end of input and an interrupt at the prompt end the session in
    good order.  From a running session with a string prompt the loop
    writes the prompt and a line feed, goes through [STOPPING] to
    [STOPPED], and [main] returns; inputs after that are not read. *)
Theorem end_of_input_stops_the_session :
  forall (w : World) (template : string) (i : input_event)
         (rest : list input_event),
    _state (game w) = STARTING \/ _state (game w) = STARTED ->
    _prompt (_config (game w)) = PyStr template ->
    i = EndOfFile \/ i = CtrlC ->
    exists w1 text,
      prompt w = (w1, Ok text)
      /\ repl (i :: rest) w
         = (mkWorld (mkGame (_config (game w)) (_round (game w)) STOPPED)
              (events w ++ [Stdout text; Stdout LF;
                            Debug (dquoted "state" ++ " set to STOPPING");
                            Debug (dquoted "state" ++ " set to STOPPED")])%list
              (ticks w1) (clock w),
            Returned).
Proof.
  intros w template i rest Hst Hp Hi.
  destruct (prompt_renders w template Hp)
    as (w1 & text & Hprompt & Hg & He & Hc & _).
  exists w1, text. split; [exact Hprompt|].
  cbn [repl]. rewrite (proj2 (loop_runs_iff (game w)) Hst).
  unfold get_user_input, bind. rewrite Hprompt.
  destruct Hi as [-> | ->]; simpl; rewrite Hg, He, Hc;
    unfold loop_except; simpl; now rewrite <- !app_assoc.
Qed.

Lemma end_of_input_stops_the_session_witness :
  snd (repl [EndOfFile; Line "get edge"] started_world) = Returned
  /\ snd (repl [CtrlC] started_world) = Returned.
Proof.
  split.
  - destruct (end_of_input_stops_the_session started_world PROMPT EndOfFile
                [Line "get edge"] (or_intror eq_refl) eq_refl (or_introl eq_refl))
      as (w1 & text & _ & H).
    now rewrite H.
  - destruct (end_of_input_stops_the_session started_world PROMPT CtrlC
                [] (or_intror eq_refl) eq_refl (or_intror eq_refl))
      as (w1 & text & _ & H).
    now rewrite H.
Defined.

Lemma prompt_clock_only (w w' : World) (text : string) :
  prompt w = (w', Ok text) -> clock_only w w'.
Proof.
  unfold prompt, bind, get_game.
  destruct (_prompt (_config (game w))); try discriminate.
  apply prompt_sub_clock_only.
Qed.

Lemma loop_stops_iff (g : Game) :
  has_started g && negb (has_stopped g) = false <->
  ~ (_state g = STARTING \/ _state g = STARTED).
Proof.
  rewrite <- loop_runs_iff.
  destruct (has_started g && negb (has_stopped g)); split;
    congruence || (intros H; now elim H).
Qed.

Lemma loop_except_Returned (e : exn) (w w' : World) (o : outcome) :
  loop_except e w = (w', o) ->
  o <> AwaitingInput /\ (o = Returned -> _state (game w') = STOPPED).
Proof.
  unfold loop_except.
  destruct (exn_type e); intros [= <- <-]; split;
    try discriminate; reflexivity.
Qed.

(** X6: the loop of [main] returns only from a stopped session.  Entered
    in [STARTING] or [STARTED], it returns with the state [STOPPED] (after
    [quit], end of input or an interrupt) and waits for input only while
    the session is still running; entered in any other state it returns
    at once, reading and writing nothing. *)
Theorem loop_returns_only_when_stopped :
  forall (inputs : list input_event) (w w' : World) (o : outcome),
    repl inputs w = (w', o) ->
    (_state (game w) = STARTING \/ _state (game w) = STARTED ->
     (o = Returned -> _state (game w') = STOPPED)
     /\ (o = AwaitingInput ->
         _state (game w') = STARTING \/ _state (game w') = STARTED))
    /\ (~ (_state (game w) = STARTING \/ _state (game w) = STARTED) ->
        w' = w /\ o = Returned).
Proof.
  induction inputs as [|i rest IH]; intros w w' o H; split.
  - intros Hrun. cbn [repl] in H.
    rewrite (proj2 (loop_runs_iff (game w)) Hrun) in H.
    unfold bind in H.
    destruct (prompt w) as [w1 [text|e]] eqn:Hp.
    + injection H as <- <-. split; [discriminate|]. intros _.
      destruct (prompt_clock_only _ _ _ Hp) as (Hg & _). simpl.
      now rewrite Hg.
    + destruct (loop_except_Returned _ _ _ _ H) as [Hn Hr].
      split; [exact Hr | intros E; now elim Hn].
  - intros Hstop. cbn [repl] in H.
    rewrite (proj2 (loop_stops_iff (game w)) Hstop) in H.
    now injection H as <- <-.
  - intros Hrun. cbn [repl] in H.
    rewrite (proj2 (loop_runs_iff (game w)) Hrun) in H.
    pose proof (keeps_bind (get_user_input i) process_user_input
                  (keeps_get_user_input i) keeps_process_user_input w) as K.
    destruct ((line <- get_user_input i;; process_user_input line) w)
      as [w1 [u|e]]; simpl in K.
    + destruct K as (_ & _ & _ & Hs).
      destruct (IH _ _ _ H) as [Hrunning Hstopped].
      destruct Hs as [Hs|Hs].
      * apply Hrunning. now rewrite Hs.
      * assert (Hn : ~ (_state (game w1) = STARTING \/ _state (game w1) = STARTED))
          by (rewrite Hs; intros [E|E]; discriminate E).
        destruct (Hstopped Hn) as [-> ->].
        split; [intros _; exact Hs | discriminate].
    + destruct (loop_except_Returned _ _ _ _ H) as [Hn Hr].
      split; [exact Hr | intros E; now elim Hn].
  - intros Hstop. cbn [repl] in H.
    rewrite (proj2 (loop_stops_iff (game w)) Hstop) in H.
    now injection H as <- <-.
Qed.

Lemma loop_returns_only_when_stopped_witness :
  _state (game (fst (repl [Line "quit"; Line "get edge"] started_world)))
  = STOPPED.
Proof.
  assert (H : repl [Line "quit"; Line "get edge"] started_world
              = (fst (repl [Line "quit"; Line "get edge"] started_world),
                 Returned))
    by (vm_compute; reflexivity).
  exact (proj1 (proj1 (loop_returns_only_when_stopped _ _ _ _ H)
                  (or_intror eq_refl)) eq_refl).
Defined.

(** X7: once a run has ended, more input changes nothing: if the loop on
    a script returns or is left by an exception, it does the same, with
    the same events and the same session, on any longer script. *)
Theorem finished_run_ignores_further_input :
  forall (inputs more : list input_event) (w w' : World) (o : outcome),
    repl inputs w = (w', o) ->
    o <> AwaitingInput ->
    repl (inputs ++ more) w = (w', o).
Proof.
  induction inputs as [|i rest IH]; intros more w w' o H Ho.
  - cbn [repl] in H. simpl app.
    destruct (has_started (game w) && negb (has_stopped (game w))) eqn:Hrun.
    + unfold bind in H.
      destruct (prompt w) as [w1 [text|e]] eqn:Hp.
      * injection H as _ <-. now elim Ho.
      * destruct more as [|j more']; cbn [repl]; rewrite Hrun;
          unfold get_user_input, bind; rewrite Hp; exact H.
    + destruct more; cbn [repl]; rewrite Hrun; exact H.
  - simpl app. cbn [repl] in *.
    destruct (has_started (game w) && negb (has_stopped (game w)));
      [|exact H].
    destruct ((line <- get_user_input i;; process_user_input line) w)
      as [w1 [u|e]]; [|exact H].
    exact (IH more _ _ _ H Ho).
Qed.

Lemma finished_run_ignores_further_input_witness :
  repl ([Line "quit"] ++ [Line "get edge"; EndOfFile]) started_world
  = repl [Line "quit"] started_world.
Proof.
  apply (finished_run_ignores_further_input [Line "quit"]
           [Line "get edge"; EndOfFile] started_world
           (fst (repl [Line "quit"] started_world)) Returned);
    [reflexivity | discriminate].
Defined.

(** X8: [main] always gets past its start: the default configuration
    validates, the session is started, and in every session the loop
    reaches, whatever is typed, [edge] and [soldiers] hold integers and
    [prompt] holds a string. *)
Theorem every_run_keeps_the_types_of_the_settings :
  forall (clk : nat -> string) (inputs : list input_event),
    exists w,
      boot clk = (events w, Ok w)
      /\ _state (game w) = STARTED
      /\ validate (_config (game w)) = Ok tt
      /\ typed (_config (game (fst (repl inputs w)))).
Proof.
  intros clk inputs. eexists. split; [reflexivity|].
  split; [reflexivity|]. split; [reflexivity|].
  apply kept_repl. unfold typed; simpl; auto.
Qed.

(** ** [get] and [set] together *)

Lemma str_of_int_not_empty (n : Z) : str_of_int n <> "".
Proof.
  unfold str_of_int, NilZero.string_of_int.
  destruct (Z.to_int n) as [d|d]; [|discriminate].
  destruct d; discriminate.
Qed.

Lemma py_repr_truthy (v : pyval) : truthy (Some (py_repr v)) = true.
Proof.
  destruct v as [|[]|n|s]; try reflexivity.
  simpl. pose proof (str_of_int_not_empty n).
  destruct (str_of_int n); [congruence | reflexivity].
Qed.

Lemma GetSetting_run_pure (setting : option string) (w : World) :
  fst (GetSetting_run setting w) = w.
Proof.
  destruct setting as [setting|]; [|reflexivity].
  unfold GetSetting_run.
  destruct (in_dec string_dec setting ["edge"; "soldiers"; "prompt"]) as [H|H].
  - apply property_names_iff in H as (fget & fset & H).
    now rewrite (GetSetting_loop_found _ _ _ _ H).
  - now rewrite (GetSetting_loop_unknown _ _ H).
Qed.

(** X9: [get] only reads.  Whatever its argument, [GetSetting.run] leaves
    the session and the streams as they were; typed as a command with the
    name of a setting, it writes exactly one line on standard output, the
    [repr] of the value, and nothing else. *)
Theorem get_prints_the_value_and_changes_nothing :
  forall (w : World),
    (forall setting, fst (GetSetting_run setting w) = w)
    /\ (forall setting fget fset line,
          dict_get GameConfig_dict setting = Some (Property fget fset) ->
          line <> "" ->
          shlex_split (py_strip line) = Ok ["get"; setting] ->
          process_user_input line w
          = (with_event w (Stdout (py_repr (fget (_config (game w))) ++ LF)),
             Ok tt)).
Proof.
  intros w. split; [intros setting; apply GetSetting_run_pure|].
  intros setting fget fset line H Hne Hs.
  rewrite (process_user_input_tokens _ _ _ _ Hne Hs).
  unfold bind at 1, dispatch, try_except, bind, lookup_action.
  cbn [dict_get _actions String.eqb Ascii.eqb Bool.eqb ret run GetSetting_run].
  rewrite (GetSetting_loop_found _ _ _ _ H). unfold report.
  now rewrite py_repr_truthy.
Qed.

Lemma get_prints_the_value_and_changes_nothing_witness :
  process_user_input "get soldiers" started_world
  = (with_event started_world (Stdout ("2" ++ LF)), Ok tt).
Proof.
  apply (proj2 (get_prints_the_value_and_changes_nothing started_world)
           "soldiers" _ _ "get soldiers" eq_refl);
    [discriminate | reflexivity].
Defined.

(** X10: what [set] stores, [get] returns.  After a [set] whose value
    converts, [get] of the same setting returns the [repr] of the
    converted value, and [get] of any other setting returns what it
    returned before; the round and the state are untouched. *)
Theorem get_after_set :
  forall (w : World) (setting value : string) (v : pyval)
         (fget : GameConfig -> pyval) (fset : GameConfig -> pyval -> GameConfig),
    dict_get GameConfig_dict setting = Some (Property fget fset) ->
    call_type (type_of (fget (_config (game w)))) value = Ok v ->
    let w' := fst (SetSetting_run (Some setting) (Some value) w) in
    GetSetting_run (Some setting) w' = (w', Ok (Some (py_repr v)))
    /\ (forall other fget' fset',
          dict_get GameConfig_dict other = Some (Property fget' fset') ->
          other <> setting ->
          snd (GetSetting_run (Some other) w')
          = snd (GetSetting_run (Some other) w))
    /\ _round (game w') = _round (game w)
    /\ _state (game w') = _state (game w).
Proof.
  intros w setting value v fget fset H Hv w'.
  assert (Hw : w' = with_event (with_config w (fset (_config (game w)) v))
                      (Debug (dquoted setting ++ " set to "
                              ++ py_str (fget (fset (_config (game w)) v))))).
  { unfold w'.
    rewrite (SetSetting_run_found _ _ _ _ _ H), (SetSetting_try_spec _ _ _ _ _ H).
    now rewrite Hv. }
  split; [|split; [|split]].
  - unfold GetSetting_run. rewrite (GetSetting_loop_found _ _ _ _ H).
    rewrite Hw at 2. simpl.
    now rewrite (property_get_set _ _ _ _ _ H).
  - intros other fget' fset' Ho Hne. unfold GetSetting_run.
    rewrite !(GetSetting_loop_found _ _ _ _ Ho). rewrite Hw. simpl.
    rewrite (property_get_other setting other _ _ _ _ _ _ H Ho); [reflexivity|].
    congruence.
  - now rewrite Hw.
  - now rewrite Hw.
Qed.

Lemma get_after_set_witness :
  GetSetting_run (Some "soldiers")
    (fst (SetSetting_run (Some "soldiers") (Some "5") started_world))
  = (fst (SetSetting_run (Some "soldiers") (Some "5") started_world),
     Ok (Some "5")).
Proof.
  exact (proj1 (get_after_set started_world "soldiers" "5" (PyInt 5) _ _
                  eq_refl eq_refl)).
Defined.

(** ** White space around a command *)

Lemma rstrip_head (c : ascii) (s : string) :
  py_isspace c = false -> exists r, rstrip (String c s) = String c r.
Proof.
  intros Hc. simpl. rewrite Hc. destruct (rstrip s); eauto.
Qed.

Lemma lstrip_shape (s : string) :
  lstrip s = "" \/ exists c r, lstrip s = String c r /\ py_isspace c = false.
Proof.
  induction s as [|c s IH]; simpl; [now left|].
  destruct (py_isspace c) eqn:Hc; [exact IH | right; eauto].
Qed.

Lemma rstrip_idempotent (s : string) : rstrip (rstrip s) = rstrip s.
Proof.
  induction s as [|c s IH]; [reflexivity|].
  simpl. destruct (rstrip s) as [|d r] eqn:Hr.
  - destruct (py_isspace c) eqn:Hc; [reflexivity|]. simpl. now rewrite Hc.
  - change (rstrip (String c (String d r))) with
      (match rstrip (String d r) with
       | "" => if py_isspace c then "" else String c ""
       | r' => String c r'
       end).
    rewrite IH. reflexivity.
Qed.

Lemma py_strip_idempotent (s : string) : py_strip (py_strip s) = py_strip s.
Proof.
  unfold py_strip.
  destruct (lstrip_shape s) as [-> | (c & r & -> & Hc)]; [reflexivity|].
  destruct (rstrip_head c r Hc) as (r' & Hr).
  rewrite Hr. simpl lstrip. rewrite Hc. rewrite <- Hr.
  apply rstrip_idempotent.
Qed.

Lemma py_strip_not_empty (s : string) : py_strip s <> "" -> s <> "".
Proof. intros H ->. now apply H. Qed.

(** X11: white space around a command does not matter.  A line whose
    stripped form is not empty is processed exactly as its stripped form:
    same events, same session, same result. *)
Theorem surrounding_white_space_is_ignored :
  forall (w : World) (line : string),
    py_strip line <> "" ->
    process_user_input line w = process_user_input (py_strip line) w.
Proof.
  intros w line H. unfold process_user_input.
  rewrite py_strip_idempotent.
  apply String.eqb_neq in H as H1.
  pose proof (py_strip_not_empty line H) as H2. apply String.eqb_neq in H2.
  now rewrite H1, H2.
Qed.

Lemma surrounding_white_space_is_ignored_witness :
  process_user_input "   get edge  " started_world
  = process_user_input "get edge" started_world.
Proof.
  apply (surrounding_white_space_is_ignored started_world "   get edge  ").
  discriminate.
Defined.

(** ** Commands that cannot end the loop *)

Lemma SetSetting_try_typed (w : World) (setting value : string)
  (fget : GameConfig -> pyval) (fset : GameConfig -> pyval -> GameConfig) :
  dict_get GameConfig_dict setting = Some (Property fget fset) ->
  typed (_config (game w)) ->
  (exists w', SetSetting_try setting value w = (w', Ok None))
  \/ SetSetting_try setting value w
     = (w, Raise (GameActionError_of ("Illegal value for setting: " ++ setting))).
Proof.
  intros H (He & Hp & Hs).
  rewrite (SetSetting_try_spec _ _ _ _ _ H).
  destruct (property_names _ _ _ H) as [-> | [-> | ->]];
    simpl in H; injection H; intros <- <-;
    rewrite ?He, ?Hp, ?Hs; simpl; try (left; eexists; reflexivity);
    destruct (py_int value) as [n|e] eqn:Hi;
    try (left; eexists; reflexivity);
    right; now rewrite (py_int_raises_ValueError _ _ Hi).
Qed.

Lemma run_within_arity (w : World) (a : GameAction) (arguments : list string) :
  typed (_config (game w)) ->
  (List.length arguments <= max_arguments a)%nat ->
  (exists w' out, run a arguments w = (w', Ok out))
  \/ exists msg, run a arguments w = (w, Raise (GameActionError_of msg)).
Proof.
  intros Ht Hn.
  destruct a; destruct arguments as [|x [|y [|z rest]]]; simpl in Hn;
    try lia; cbn [run GetSetting_run SetSetting_run].
  - right; eexists; reflexivity.
  - destruct (in_dec string_dec x ["edge"; "soldiers"; "prompt"]) as [H|H].
    + apply property_names_iff in H as (fget & fset & H).
      rewrite (GetSetting_loop_found _ _ _ _ H). left; eauto.
    + rewrite (GetSetting_loop_unknown _ _ H). right; eauto.
  - right; eexists; reflexivity.
  - right; eexists; reflexivity.
  - destruct (in_dec string_dec x ["edge"; "soldiers"; "prompt"]) as [H|H].
    + apply property_names_iff in H as (fget & fset & H).
      rewrite (SetSetting_loop_found _ _ _ _ H).
      destruct (SetSetting_try_typed w x y fget fset H Ht) as [(w' & ->) | ->];
        [left | right]; eauto.
    + rewrite (SetSetting_loop_unknown _ _ _ H). right; eauto.
  - left. do 2 eexists. reflexivity.
Qed.

(** X12: a command with no more arguments than its action takes cannot
    end the loop.  In a session whose settings hold values of their
    types, [get] with at most one argument, [set] with at most two and
    [quit] with none are dispatched without an exception; with more
    arguments the call of [run] raises [TypeError], which the dispatch
    lets through with the session untouched. *)
Theorem dispatch_raises_exactly_on_surplus_arguments :
  forall (w : World) (action : string) (cls : GameAction)
         (arguments : list string),
    dict_get _actions action = Some cls ->
    ((List.length arguments <= max_arguments cls)%nat ->
     typed (_config (game w)) ->
     exists w' out, dispatch action arguments w = (w', Ok out))
    /\ ((max_arguments cls < List.length arguments)%nat ->
        dispatch action arguments w
        = (w, Raise (too_many_arguments cls (List.length arguments)))).
Proof.
  intros w action cls arguments Ha.
  unfold dispatch, try_except, bind, lookup_action. rewrite Ha.
  cbn [ret]. split.
  - intros Hn Ht.
    destruct (run_within_arity w cls arguments Ht Hn)
      as [(w' & out & ->) | (msg & ->)]; do 2 eexists; reflexivity.
  - intros Hn.
    destruct cls; destruct arguments as [|x [|y [|z rest]]]; simpl in Hn;
      try lia; reflexivity.
Qed.

Lemma dispatch_raises_exactly_on_surplus_arguments_witness :
  (exists w' out, dispatch "set" ["edge"; "abc"] started_world = (w', Ok out))
  /\ dispatch "set" ["edge"; "1"; "2"] started_world
     = (started_world, Raise (too_many_arguments SetSetting 3)).
Proof.
  split.
  - apply (proj1 (dispatch_raises_exactly_on_surplus_arguments started_world
                    "set" SetSetting ["edge"; "abc"] eq_refl));
      [simpl; lia | unfold typed; simpl; auto].
  - apply (proj2 (dispatch_raises_exactly_on_surplus_arguments started_world
                    "set" SetSetting ["edge"; "1"; "2"] eq_refl)).
    simpl; lia.
Defined.

(** ** [int] of [str] of an integer *)

Lemma uint_value_acc (d : Decimal.uint) :
  forall acc : positive, uint_value d (Z.pos acc) = Z.pos (Pos.of_uint_acc d acc).
Proof.
  induction d; intros acc; cbn [uint_value Pos.of_uint_acc];
    [reflexivity | rewrite <- IHd; f_equal; lia ..].
Qed.

Lemma uint_value_0 (d : Decimal.uint) : uint_value d 0 = Z.of_uint d.
Proof.
  induction d; unfold Z.of_uint; simpl;
    [reflexivity | exact IHd | apply uint_value_acc ..].
Qed.

Lemma int_digits_uint (d : Decimal.uint) :
  forall (acc : Z) (count : nat),
    int_digits (NilEmpty.string_of_uint d) (Some true) acc count
    = Some (uint_value d acc,
            (count + String.length (NilEmpty.string_of_uint d))%nat).
Proof.
  induction d; intros acc count;
    [simpl; now rewrite Nat.add_0_r | ..];
    cbn [NilEmpty.string_of_uint int_digits String.length uint_value];
    change (is_digit _) with true; cbv iota;
    rewrite IHd, Nat.add_succ_r; reflexivity.
Qed.

Lemma int_digits_numeral (d : Decimal.uint) :
  int_digits (NilZero.string_of_uint d) None 0 0
  = Some (Z.of_uint d, String.length (NilZero.string_of_uint d)).
Proof.
  destruct d; [reflexivity | ..];
    unfold NilZero.string_of_uint;
    cbn [NilEmpty.string_of_uint int_digits String.length];
    change (is_digit _) with true; cbv iota;
    rewrite int_digits_uint, <- uint_value_0; reflexivity.
Qed.

Lemma int_rstrip_cons (c : ascii) (s : string) :
  int_isspace c = false -> int_rstrip s = s ->
  int_rstrip (String c s) = String c s.
Proof.
  intros Hc Hs. simpl. rewrite Hs. destruct s; [now rewrite Hc | reflexivity].
Qed.

Lemma int_rstrip_uint (d : Decimal.uint) :
  int_rstrip (NilEmpty.string_of_uint d) = NilEmpty.string_of_uint d.
Proof.
  induction d; [reflexivity | ..];
    cbn [NilEmpty.string_of_uint]; apply int_rstrip_cons;
    (reflexivity || exact IHd).
Qed.

Lemma int_strip_numeral (d : Decimal.uint) :
  int_strip (NilZero.string_of_uint d) = NilZero.string_of_uint d
  /\ int_strip (String "-" (NilZero.string_of_uint d))
     = String "-" (NilZero.string_of_uint d).
Proof.
  assert (H : int_rstrip (NilZero.string_of_uint d) = NilZero.string_of_uint d)
    by (destruct d; [reflexivity | apply int_rstrip_uint ..]).
  unfold int_strip. split.
  - destruct d; exact H.
  - change (int_lstrip (String "-" (NilZero.string_of_uint d)))
      with (String "-" (NilZero.string_of_uint d)).
    apply int_rstrip_cons; [reflexivity | exact H].
Qed.

(** The conversion of what [str] writes for a numeral of a sign. *)
Lemma py_int_numeral (d : Decimal.uint) (neg : bool) :
  py_int (if neg then String "-" (NilZero.string_of_uint d)
          else NilZero.string_of_uint d)
  = if Nat.ltb INT_MAX_STR_DIGITS (String.length (NilZero.string_of_uint d))
    then
      Raise (Exn ValueError
        ("Exceeds the limit (" ++ str_of_int (Z.of_nat INT_MAX_STR_DIGITS)
         ++ " digits) for integer string conversion: value has "
         ++ str_of_int (Z.of_nat (String.length (NilZero.string_of_uint d)))
         ++ " digits; use sys.set_int_max_str_digits() to increase the limit"))
    else Ok (if neg then - Z.of_uint d else Z.of_uint d).
Proof.
  destruct (int_strip_numeral d) as [Hp Hn].
  unfold py_int. destruct neg.
  - rewrite Hn. cbv beta iota zeta.
    rewrite int_digits_numeral. reflexivity.
  - rewrite Hp.
    assert (Hm : match NilZero.string_of_uint d with
                 | String "-" rest => (true, rest)
                 | String "+" rest => (false, rest)
                 | _ => (false, NilZero.string_of_uint d)
                 end = (false, NilZero.string_of_uint d))
      by (destruct d; reflexivity).
    rewrite Hm. rewrite int_digits_numeral. reflexivity.
Qed.

Lemma str_of_int_numeral (n : Z) :
  exists (d : Decimal.uint) (neg : bool),
    str_of_int n = (if neg then String "-" (NilZero.string_of_uint d)
                    else NilZero.string_of_uint d)
    /\ (if neg then - Z.of_uint d else Z.of_uint d) = n
    /\ decimal_digits n = String.length (NilZero.string_of_uint d).
Proof.
  pose proof (DecimalZ.of_to n) as Hn.
  unfold decimal_digits, str_of_int.
  destruct n as [|p|p]; simpl Z.abs.
  - exists (Decimal.D0 Decimal.Nil), false. auto.
  - exists (Pos.to_uint p), false. auto.
  - exists (Pos.to_uint p), true. auto.
Qed.

(** X13: the text [get] prints for an integer converts back to that
    integer: for every integer of at most 4300 digits [int(str(n))] is
    [n], so giving the output of [get] back to [set] on an integer
    setting stores the same value; an integer with more digits is
    refused by [int] with a [ValueError]. *)
Theorem get_output_converts_back :
  forall n : Z,
    ((decimal_digits n <= INT_MAX_STR_DIGITS)%nat ->
     py_int (str_of_int n) = Ok n
     /\ forall (w : World) (setting : string) fget fset,
         dict_get GameConfig_dict setting = Some (Property fget fset) ->
         type_of (fget (_config (game w))) = TInt ->
         let w' := fst (SetSetting_run (Some setting)
                          (Some (py_repr (PyInt n))) w) in
         fget (_config (game w')) = PyInt n)
    /\ ((INT_MAX_STR_DIGITS < decimal_digits n)%nat ->
        exists msg, py_int (str_of_int n) = Raise (Exn ValueError msg)).
Proof.
  intros n.
  destruct (str_of_int_numeral n) as (d & neg & Hs & Hv & Hd).
  pose proof (py_int_numeral d neg) as Hp. rewrite <- Hs, <- Hd, Hv in Hp.
  split.
  - intros Hle.
    apply Nat.ltb_ge in Hle. rewrite Hle in Hp.
    split; [exact Hp|].
    intros w setting fget fset H Ht w'. unfold w'.
    rewrite (SetSetting_run_found _ _ _ _ _ H), (SetSetting_try_spec _ _ _ _ _ H).
    rewrite Ht. cbn [call_type py_repr]. rewrite Hp. cbn [fst game _config].
    unfold with_event, with_config. cbn [game _config].
    apply (property_get_set _ _ _ _ _ H).
  - intros Hlt. apply Nat.ltb_lt in Hlt. rewrite Hlt in Hp.
    eexists. exact Hp.
Qed.

Lemma get_output_converts_back_witness :
  py_int (str_of_int (-1000)) = Ok (-1000).
Proof.
  apply (proj1 (get_output_converts_back (-1000))).
  unfold decimal_digits, INT_MAX_STR_DIGITS. simpl String.length. lia.
Defined.

(** ** Quoted arguments *)

Lemma append_empty_r (s : string) : s ++ "" = s.
Proof. induction s as [|c s IH]; simpl; [reflexivity | now rewrite IH]. Qed.

Lemma shlex_scan_single_quoted (v : string) :
  forall (rest token : string) (quoted : bool) (acc : list string),
    contains "'" v = false ->
    shlex_scan (v ++ String "'" rest) (InQuote "'") token quoted acc
    = shlex_scan rest InWord (token ++ v) true acc.
Proof.
  induction v as [|c v IH]; intros rest token quoted acc H.
  - rewrite append_empty_r. reflexivity.
  - simpl in H. apply orb_false_iff in H as [Hc Hv].
    change (String c v ++ String "'" rest) with (String c (v ++ String "'" rest)).
    cbn [shlex_scan]. rewrite Hc.
    change (shlex_escape c && ("'" =? DQ)%char) with (shlex_escape c && false).
    rewrite andb_false_r.
    rewrite (IH rest _ true acc Hv).
    now rewrite append_assoc.
Qed.

Lemma rstrip_app_char (s : string) (c : ascii) :
  py_isspace c = false -> rstrip (s ++ String c "") = s ++ String c "".
Proof.
  intros Hc. induction s as [|x s IH]; simpl.
  - now rewrite Hc.
  - rewrite IH. destruct s; reflexivity.
Qed.

(** X14: an argument between single quotes is taken as it is.  For every
    string [v] without a single quote, the command [set prompt '<v>']
    stores exactly [v] as the prompt, with its spaces, double quotes,
    backslashes and percent signs, and writes no line. *)
Theorem single_quoted_prompt_is_stored_verbatim :
  forall (w : World) (v : string),
    contains "'" v = false ->
    type_of (_prompt (_config (game w))) = TStr ->
    shlex_split ("set prompt '" ++ v ++ "'") = Ok ["set"; "prompt"; v]
    /\ process_user_input ("set prompt '" ++ v ++ "'") w
       = (with_event
            (with_config w
               (mkGameConfig (_edge (_config (game w))) (PyStr v)
                  (_soldiers (_config (game w)))))
            (Debug (dquoted "prompt" ++ " set to " ++ v)),
          Ok tt).
Proof.
  intros w v Hv Ht.
  assert (Hsplit : shlex_split ("set prompt '" ++ v ++ "'")
                   = Ok ["set"; "prompt"; v]).
  { unfold shlex_split.
    change (shlex_scan ("set prompt '" ++ v ++ "'") InBlank "" false [])
      with (shlex_scan (v ++ String "'" "") (InQuote "'") "" false
              ["set"; "prompt"]).
    rewrite (shlex_scan_single_quoted v "" "" false _ Hv).
    cbn [shlex_scan append]. rewrite orb_true_r. reflexivity. }
  split; [exact Hsplit|].
  assert (Hstrip : py_strip ("set prompt '" ++ v ++ "'")
                   = "set prompt '" ++ v ++ "'").
  { unfold py_strip.
    change (lstrip ("set prompt '" ++ v ++ "'")) with ("set prompt '" ++ v ++ "'").
    replace ("set prompt '" ++ v ++ "'") with (("set prompt '" ++ v) ++ String "'" "")
      by apply append_assoc.
    apply rstrip_app_char. reflexivity. }
  rewrite (process_user_input_tokens ("set prompt '" ++ v ++ "'") "set"
             ["prompt"; v] w); [|discriminate | now rewrite Hstrip].
  unfold bind at 1, dispatch, try_except, bind, lookup_action.
  cbn [dict_get _actions String.eqb Ascii.eqb Bool.eqb ret run].
  rewrite (SetSetting_run_found w "prompt" v _ _ eq_refl).
  rewrite (SetSetting_try_spec w "prompt" v _ _ eq_refl).
  rewrite Ht. reflexivity.
Qed.

Lemma single_quoted_prompt_is_stored_verbatim_witness :
  shlex_split ("set prompt '" ++ "round %r \ > " ++ "'")
  = Ok ["set"; "prompt"; "round %r \ > "].
Proof.
  apply (proj1 (single_quoted_prompt_is_stored_verbatim started_world
                  "round %r \ > " eq_refl eq_refl)).
Defined.

(** ** The lines a command writes *)

Lemma extends_quietly_refl (w : World) : extends_quietly w w.
Proof. exists []. now rewrite app_nil_r. Qed.

Lemma extends_quietly_trans (a b c : World) :
  extends_quietly a b -> extends_quietly b c -> extends_quietly a c.
Proof.
  intros (x & Hx & Qx) (y & Hy & Qy). exists (x ++ y)%list. split.
  - now rewrite Hy, Hx, app_assoc.
  - unfold user_lines in *. now rewrite filter_app, Qx, Qy.
Qed.

Lemma quiet_ret {A} (a : A) : quiet (ret a).
Proof. intros w; apply extends_quietly_refl. Qed.

Lemma quiet_raise {A} (e : exn) : quiet (@raise A e).
Proof. intros w; apply extends_quietly_refl. Qed.

Lemma quiet_bind {A B} (m : M A) (k : A -> M B) :
  quiet m -> (forall a, quiet (k a)) -> quiet (bind m k).
Proof.
  intros Hm Hk w. unfold bind. specialize (Hm w).
  destruct (m w) as [w' [a|e]]; simpl in *; [|exact Hm].
  eapply extends_quietly_trans; [exact Hm | apply Hk].
Qed.

Lemma quiet_try_except {A} (m : M A) (h : exn -> M A) :
  quiet m -> (forall e, quiet (h e)) -> quiet (try_except m h).
Proof.
  intros Hm Hh w. unfold try_except. specialize (Hm w).
  destruct (m w) as [w' [a|e]]; simpl in *; [exact Hm|].
  eapply extends_quietly_trans; [exact Hm | apply Hh].
Qed.

Lemma quiet_debug (s : string) : quiet (emit (Debug s)).
Proof. intros w. exists [Debug s]. split; reflexivity. Qed.

Lemma quiet_get_game : quiet get_game.
Proof. intros w; apply extends_quietly_refl. Qed.

Lemma quiet_put_game (g : Game) : quiet (put_game g).
Proof. intros w. exists []. simpl. now rewrite app_nil_r. Qed.

Create HintDb quiet.

#[local] Hint Resolve quiet_ret quiet_raise quiet_debug quiet_get_game
  quiet_put_game : quiet.

Lemma quiet_set_state (s : GameState) : quiet (set_state s).
Proof.
  unfold set_state. repeat (apply quiet_bind; [auto with quiet | intros ?]).
  auto with quiet.
Qed.

Lemma quiet_stop : quiet stop.
Proof. apply quiet_bind; [|intros _]; apply quiet_set_state. Qed.

Lemma quiet_getattr (name : string) : quiet (getattr name).
Proof.
  unfold getattr. apply quiet_bind; [auto with quiet|]. intros g.
  destruct (dict_get GameConfig_dict name) as [[| |fget fset]|];
    auto with quiet.
Qed.

Lemma quiet_setattr (name : string) (v : pyval) : quiet (setattr name v).
Proof.
  unfold setattr. apply quiet_bind; [auto with quiet|]. intros g.
  destruct (dict_get GameConfig_dict name) as [[| |fget fset]|];
    auto with quiet.
  apply quiet_bind; auto with quiet.
Qed.

Lemma quiet_SetSetting_try (setting value : string) :
  quiet (SetSetting_try setting value).
Proof.
  unfold SetSetting_try. apply quiet_try_except.
  - apply quiet_bind; [apply quiet_getattr|]. intros old.
    apply quiet_bind; [intros w; apply extends_quietly_refl|]. intros new.
    apply quiet_bind; [apply quiet_setattr | auto with quiet].
  - intros exc. destruct (exn_type exc); auto with quiet.
Qed.

Lemma quiet_run (a : GameAction) (arguments : list string) :
  quiet (run a arguments).
Proof.
  assert (Hget : forall items s, quiet (GetSetting_loop items s)).
  { induction items as [|[p v] rest IH]; intros s; simpl; auto with quiet.
    destruct (_ && _); [|apply IH].
    apply quiet_bind; [apply quiet_getattr | auto with quiet]. }
  assert (Hset : forall items s v, quiet (SetSetting_loop items s v)).
  { induction items as [|[p m] rest IH]; intros s v; simpl; auto with quiet.
    destruct (_ || _); [apply IH | apply quiet_SetSetting_try]. }
  destruct a; destruct arguments as [|x [|y [|z rest]]];
    cbn [run GetSetting_run SetSetting_run]; unfold QuitGame_run;
    auto with quiet.
  apply quiet_bind; [apply quiet_stop | auto with quiet].
Qed.

(** X15: a command writes at most one line for the user.  Whatever the
    input line, processing it appends to the events either records for
    the logger only, or those and one line on standard output ending in
    a line feed, or those and one line on standard error of the form
    [ERROR: ...] ending in a line feed; never both, never two. *)
Theorem a_command_writes_at_most_one_line :
  forall (w : World) (line : string),
    exists extra,
      events (fst (process_user_input line w)) = (events w ++ extra)%list
      /\ (user_lines extra = []
          \/ (exists text, user_lines extra = [Stdout (text ++ LF)])
          \/ (exists msg, user_lines extra = [Stderr ("ERROR: " ++ msg ++ LF)])).
Proof.
  intros w line.
  assert (Hnone : exists extra,
             events w = (events w ++ extra)%list
             /\ (user_lines extra = []
                 \/ (exists text, user_lines extra = [Stdout (text ++ LF)])
                 \/ (exists msg,
                        user_lines extra = [Stderr ("ERROR: " ++ msg ++ LF)])))
    by (exists []; split; [now rewrite app_nil_r | now left]).
  unfold process_user_input.
  destruct (line =? "")%string; [exact Hnone|].
  unfold bind at 1, unpack_action.
  destruct (shlex_split (py_strip line)) as [[|action arguments]|e];
    try exact Hnone.
  cbn [ret]. unfold bind at 1. unfold dispatch, try_except.
  pose proof (quiet_bind (lookup_action action) (fun cls => run cls arguments)
                ltac:(unfold lookup_action;
                      destruct (dict_get _actions action); auto with quiet)
                (fun cls => quiet_run cls arguments) w) as Q.
  destruct ((cls <- lookup_action action;; run cls arguments) w)
    as [w1 [out|e]]; simpl in Q;
    destruct Q as (extra & He & Hq).
  - unfold report. destruct out as [[|c text]|]; simpl.
    + exists extra. split; [exact He | now left].
    + exists (extra ++ [Stdout (String c text ++ LF)])%list. split.
      * now rewrite He, app_assoc.
      * right; left. exists (String c text).
        unfold user_lines in *. now rewrite filter_app, Hq.
    + exists extra. split; [exact He | now left].
  - destruct (exn_type e); simpl;
      try (exists extra; split; [exact He | now left]).
    + exists (extra ++ [Stderr ("ERROR: Unknown action: " ++ action ++ LF)])%list.
      split; [now rewrite He, app_assoc|].
      right; right. exists ("Unknown action: " ++ action).
      unfold user_lines in *. rewrite filter_app, Hq. reflexivity.
    + exists (extra ++ [Stderr ("ERROR: " ++ exn_msg e ++ LF)])%list.
      split; [now rewrite He, app_assoc|].
      right; right. exists (exn_msg e).
      unfold user_lines in *. now rewrite filter_app, Hq.
Qed.

(** ** What [set] can and cannot change *)

Lemma SetSetting_run_outcome (w : World) (setting value : string) :
  (~ In setting ["edge"; "soldiers"; "prompt"]
   /\ SetSetting_run (Some setting) (Some value) w
      = (w, Raise (GameActionError_of ("Unknown setting: " ++ setting))))
  \/ (exists fget fset,
         dict_get GameConfig_dict setting = Some (Property fget fset)
         /\ ((exists e, SetSetting_run (Some setting) (Some value) w = (w, Raise e))
             \/ exists v,
                 call_type (type_of (fget (_config (game w)))) value = Ok v
                 /\ SetSetting_run (Some setting) (Some value) w
                    = (with_event (with_config w (fset (_config (game w)) v))
                         (Debug (dquoted setting ++ " set to " ++ py_str v)),
                       Ok None))).
Proof.
  destruct (in_dec string_dec setting ["edge"; "soldiers"; "prompt"]) as [H|H].
  - right. apply property_names_iff in H as (fget & fset & H).
    exists fget, fset. split; [exact H|].
    rewrite (SetSetting_run_found _ _ _ _ _ H), (SetSetting_try_spec _ _ _ _ _ H).
    destruct (call_type _ value) as [v|e].
    + right. exists v. split; [reflexivity|]. cbv zeta.
      now rewrite (property_get_set _ _ _ _ _ H).
    + left. destruct (exn_type e); eexists; reflexivity.
  - left. split; [exact H|]. exact (SetSetting_loop_unknown setting value w H).
Qed.

(** X16: [set] never changes the type of a setting.  Whatever the
    arguments and whether it succeeds or raises, after [SetSetting.run]
    every setting holds a value of the type it held before (the new value
    is made by calling the type of the old one), in any session, also one
    whose settings hold values of other types than the defaults. *)
Theorem set_keeps_the_type_of_every_setting :
  forall (w : World) (setting value name : string) fget fset,
    dict_get GameConfig_dict name = Some (Property fget fset) ->
    type_of (fget (_config (game (fst (SetSetting_run (Some setting)
                                         (Some value) w)))))
    = type_of (fget (_config (game w))).
Proof.
  intros w setting value name fget fset Hn.
  destruct (SetSetting_run_outcome w setting value)
    as [[_ ->] | (fg & fs & Hs & [(e & ->) | (v & Hv & ->)])];
    try reflexivity.
  cbn [fst with_event with_config game _config].
  destruct (string_dec setting name) as [<-|Hne].
  - rewrite Hs in Hn. injection Hn; intros <- <-.
    rewrite (property_get_set _ _ _ _ _ Hs).
    exact (call_type_type _ _ _ Hv).
  - now rewrite (property_get_other setting name _ _ _ _ _ _ Hs Hn Hne).
Qed.

Lemma set_keeps_the_type_of_every_setting_witness :
  type_of (_edge (_config (game (fst (SetSetting_run (Some "edge")
                                        (Some "-7") started_world)))))
  = TInt.
Proof.
  exact (set_keeps_the_type_of_every_setting started_world "edge" "-7" "edge"
           _ _ eq_refl).
Defined.

(** ** Errors change nothing *)

Lemma run_failure_changes_nothing (w w' : World) (a : GameAction)
  (arguments : list string) (e : exn) :
  run a arguments w = (w', Raise e) -> w' = w.
Proof.
  destruct a; destruct arguments as [|x [|y [|z rest]]];
    cbn [run GetSetting_run SetSetting_run]; unfold QuitGame_run;
    try (intros [= <- _]; reflexivity).
  - intros H. pose proof (GetSetting_run_pure (Some x) w) as P.
    unfold GetSetting_run in P. rewrite H in P. exact P.
  - change (SetSetting_loop GameConfig_dict x y w)
      with (SetSetting_run (Some x) (Some y) w).
    destruct (SetSetting_run_outcome w x y)
      as [[_ ->] | (fg & fs & _ & [(e' & ->) | (v & _ & ->)])];
      first [intros [= <- _]; reflexivity | discriminate].
Qed.

(** X17: a command that fails changes nothing.  The dispatch of a verb
    with its arguments ends in one of three ways: the action succeeds,
    and only records for the logger are added; or an error is reported,
    and the session is exactly as before but for the one line [ERROR:
    ...] on standard error; or an exception is let through, and the
    session and the streams are exactly as before. *)
Theorem failed_command_changes_nothing :
  forall (w : World) (action : string) (arguments : list string),
    (exists w' out,
        dispatch action arguments w = (w', Ok out) /\ extends_quietly w w')
    \/ (exists msg,
           dispatch action arguments w
           = (with_event w (Stderr ("ERROR: " ++ msg ++ LF)), Ok None))
    \/ (exists e, dispatch action arguments w = (w, Raise e)).
Proof.
  intros w action arguments.
  unfold dispatch, try_except, bind, lookup_action.
  destruct (dict_get _actions action) as [cls|]; cbn [ret raise].
  - pose proof (quiet_run cls arguments w) as Q.
    destruct (run cls arguments w) as [w' [out|e]] eqn:Hr.
    + left. exists w', out. split; [reflexivity | exact Q].
    + rewrite (run_failure_changes_nothing _ _ _ _ _ Hr).
      destruct (exn_type e);
        try (right; right; eexists; reflexivity);
        right; left.
      * exists ("Unknown action: " ++ action). reflexivity.
      * exists (exn_msg e). reflexivity.
  - right; left. exists ("Unknown action: " ++ action). reflexivity.
Qed.
